(** * Heading detection for PDF outlines: a shallow embedding of [main.py]

    The development follows the three functions of the program:
    [is_heading_candidate] (the per-line classifier), [detect_headings]
    (the scan of a parsed document followed by the construction of the
    title and the outline) and [process_all_pdfs] (the batch driver).

    Modelling choices.
    - Python [str] values are Rocq strings; the text is taken over the
      ASCII range, where [str.upper], [str.lower], [str.split] and
      [str.strip] have the simple definitions given below.
    - Font sizes are Python floats; they are modelled by exact rationals
      in canonical form ([Qc]), so that [==] on sizes is Leibniz equality.
    - Python integers are [Z].
    - The parsed PDF (pages, blocks, lines, spans) is an explicit value;
      the parser itself is an oracle of the batch driver. *)

From Stdlib Require Import List String Ascii Bool ZArith QArith Qcanon Lia.
From Stdlib Require Import Sorting.Permutation Sorting.Sorted.
From Stdlib Require DecimalString.
Import ListNotations.

Local Open Scope string_scope.
Local Open Scope Z_scope.

(** ** Python built-ins used by the program *)

Module Py.

(** [str.isspace] on one character, ASCII range: TAB, LF, VT, FF, CR,
    FS, GS, RS, US and SPACE. *)
Definition isspace (c : ascii) : bool :=
  let n := N_of_ascii c in
  ((9 <=? n) && (n <=? 13) || (28 <=? n) && (n <=? 32))%N.

Definition upper_char (c : ascii) : ascii :=
  let n := N_of_ascii c in
  if ((97 <=? n) && (n <=? 122))%N then ascii_of_N (n - 32) else c.

Definition lower_char (c : ascii) : ascii :=
  let n := N_of_ascii c in
  if ((65 <=? n) && (n <=? 90))%N then ascii_of_N (n + 32) else c.

Fixpoint smap (f : ascii -> ascii) (s : string) : string :=
  match s with
  | EmptyString => EmptyString
  | String c s' => String (f c) (smap f s')
  end.

(** [s.upper()] and [s.lower()] *)
Definition upper (s : string) : string := smap upper_char s.
Definition lower (s : string) : string := smap lower_char s.

(** [s.lstrip()] *)
Fixpoint lstrip (s : string) : string :=
  match s with
  | EmptyString => EmptyString
  | String c s' => if isspace c then lstrip s' else s
  end.

(** [s.rstrip()] *)
Fixpoint rstrip (s : string) : string :=
  match s with
  | EmptyString => EmptyString
  | String c s' =>
      match rstrip s' with
      | EmptyString => if isspace c then EmptyString else String c EmptyString
      | r => String c r
      end
  end.

(** [s.strip()] *)
Definition strip (s : string) : string := rstrip (lstrip s).

(** [s.split()] without argument: the maximal runs of non-space
    characters.  [cur] is the token being read, in reverse. *)
Fixpoint split_aux (cur : list ascii) (s : string) : list string :=
  match s with
  | EmptyString =>
      match cur with
      | [] => []
      | _ => [string_of_list_ascii (List.rev cur)]
      end
  | String c s' =>
      if isspace c then
        match cur with
        | [] => split_aux [] s'
        | _ => string_of_list_ascii (List.rev cur) :: split_aux [] s'
        end
      else split_aux (c :: cur) s'
  end.

Definition split (s : string) : list string := split_aux [] s.

(** [len(l)] *)
Definition len {A : Type} (l : list A) : Z := Z.of_nat (List.length l).

(** [s.endswith(suffix)] *)
Definition endswith (s suffix : string) : bool :=
  let n := String.length s in
  let m := String.length suffix in
  (m <=? n)%nat && (substring (n - m) m s =? suffix)%string.

(** [str(n)] for a non-negative integer *)
Definition str_of_nat (n : nat) : string :=
  DecimalString.NilEmpty.string_of_uint (Nat.to_uint n).

(** [str(z)] for an integer *)
Definition str_of_int (z : Z) : string :=
  if z <? 0 then "-" ++ str_of_nat (Z.to_nat (- z)) else str_of_nat (Z.to_nat z).

(** Truth value of an optional string: [None] and the empty string are
    falsy. *)
Definition truthy_str (o : option string) : bool :=
  match o with
  | None => false
  | Some s => negb (s =? EmptyString)%string
  end.

(** Comparison of floats, as booleans *)
Definition gt (x y : Qc) : bool :=
  match Qccompare x y with Gt => true | _ => false end.

Definition le (x y : Qc) : bool :=
  match Qccompare x y with Gt => false | _ => true end.

Definition feq (x y : Qc) : bool :=
  match Qccompare x y with Eq => true | _ => false end.

(** An integer literal used where a float is expected *)
Definition num (z : Z) : Qc := Q2Qc (inject_Z z).

(** Truth value of an optional float: [None] and [0.0] are falsy. *)
Definition truthy_num (o : option Qc) : bool :=
  match o with
  | None => false
  | Some x => negb (feq x (num 0))
  end.

(** [sum(l)] *)
Definition sum (l : list Qc) : Qc := fold_left Qcplus l (num 0).

(** ** Sorting

    [list.sort] and [sorted] are stable.  The model is the insertion
    sort that puts an element in front of the first later element whose
    key is not smaller. *)
Section Sort.
Context {A K : Type} (key : A -> K) (leb : K -> K -> bool).

Fixpoint insert (x : A) (l : list A) : list A :=
  match l with
  | [] => [x]
  | y :: l' =>
      if leb (key x) (key y) then x :: l else y :: insert x l'
  end.

Fixpoint sort (l : list A) : list A :=
  match l with
  | [] => []
  | x :: l' => insert x (sort l')
  end.

(** [sorted(l, reverse=True)]: the list is reversed, sorted and
    reversed again, which keeps equal elements in their order. *)
Definition sort_reverse (l : list A) : list A :=
  List.rev (sort (List.rev l)).
End Sort.

(** [list(set(l))]: one representative of each value; the iteration
    order of a set is unspecified and the program sorts the result. *)
Fixpoint set_list (l : list Qc) : list Qc :=
  match l with
  | [] => []
  | x :: l' => x :: filter (fun y => negb (feq y x)) (set_list l')
  end.

(** ** Dictionaries keyed by floats, as association lists *)
Definition dict (V : Type) : Type := list (Qc * V).

Fixpoint dict_get {V : Type} (d : dict V) (k : Qc) : option V :=
  match d with
  | [] => None
  | (k', v) :: d' => if feq k' k then Some v else dict_get d' k
  end.

(** [d[k] = v] *)
Fixpoint dict_set {V : Type} (d : dict V) (k : Qc) (v : V) : dict V :=
  match d with
  | [] => [(k, v)]
  | (k', v') :: d' =>
      if feq k' k then (k', v) :: d' else (k', v') :: dict_set d' k v
  end.

(** [enumerate(l, start)] *)
Fixpoint enumerate {A : Type} (start : Z) (l : list A) : list (Z * A) :=
  match l with
  | [] => []
  | x :: l' => (start, x) :: enumerate (start + 1) l'
  end.

End Py.

(** ** The regular expressions of [re], as far as the program uses them *)

Module Re.

Inductive regex : Type :=
| Lit (c : ascii)                 (* one literal character *)
| Opt (r : regex)                 (* r? *)
| Seq (r1 r2 : regex)             (* r1 r2 *)
| Alt (r1 r2 : regex)             (* r1|r2 *)
| NonSpacePlus.                   (* \S+ *)

(** Greedy [\S*] followed by the continuation [k] *)
Fixpoint nonspace_star (s : string) (k : string -> bool) : bool :=
  match s with
  | EmptyString => k s
  | String c s' =>
      (negb (Py.isspace c) && nonspace_star s' k) || k s
  end.

(** Backtracking matcher: [run r s k] holds when [r] matches a prefix of
    [s] and [k] accepts the rest. *)
Fixpoint run (r : regex) (s : string) (k : string -> bool) : bool :=
  match r with
  | Lit c =>
      match s with
      | String c' s' => (Ascii.eqb c c') && k s'
      | EmptyString => false
      end
  | Opt r1 => run r1 s k || k s
  | Seq r1 r2 => run r1 s (fun s' => run r2 s' k)
  | Alt r1 r2 => run r1 s k || run r2 s k
  | NonSpacePlus =>
      match s with
      | String c s' => negb (Py.isspace c) && nonspace_star s' k
      | EmptyString => false
      end
  end.

(** [re.match(r, s)] as a truth value: a match anchored at the start *)
Definition matches (r : regex) (s : string) : bool :=
  run r s (fun _ => true).

Fixpoint lit (s : string) : regex -> regex :=
  match s with
  | EmptyString => fun r => r
  | String c s' => fun r => Seq (Lit c) (lit s' r)
  end.

End Re.

(** ** [is_heading_candidate] *)

(** The pattern [https?://\S+|www\.\S+] *)
Definition url_pattern : Re.regex :=
  Re.Alt
    (Re.lit "http" (Re.Seq (Re.Opt (Re.Lit "s")) (Re.lit "://" Re.NonSpacePlus)))
    (Re.lit "www." Re.NonSpacePlus).

(** First rejection rule: the text matches the URL pattern. *)
Definition is_url (text : string) : bool := Re.matches url_pattern text.

(** Second rejection rule: fewer than two tokens, unless bold and large. *)
Definition too_short (text : string) (font_size : Qc) (is_bold : bool) : bool :=
  (Py.len (Py.split text) <? 2) && negb (is_bold && Py.gt font_size (Py.num 14)).

Definition is_all_caps (text : string) : bool := (text =? Py.upper text)%string.

Definition ends_with_colon (text : string) : bool :=
  Py.endswith (Py.strip text) ":".

Definition is_short (text : string) : bool := Py.len (Py.split text) <=? 8.

(** The size jump: [prev_font_size and font_size > prev_font_size + 2] *)
Definition size_jump (font_size : Qc) (prev_font_size : option Qc) : bool :=
  Py.truthy_num prev_font_size &&
  match prev_font_size with
  | Some p => Py.gt font_size (p + Py.num 2)%Qc
  | None => false
  end.

(** The score, accumulated as the program does. *)
Definition heading_score (text : string) (font_size : Qc) (is_bold : bool)
    (prev_font_size : option Qc) : Z :=
  let score := 0 in
  let score := if is_bold then score + 2 else score in
  let score := if is_all_caps text then score + 1 else score in
  let score := if ends_with_colon text then score + 1 else score in
  let score := if is_short text then score + 1 else score in
  let score := if Py.gt font_size (Py.num 12) then score + 1 else score in
  let score := if size_jump font_size prev_font_size then score + 2 else score in
  score.

Definition is_heading_candidate (text : string) (font_size : Qc)
    (is_bold : bool) (prev_font_size : option Qc) : bool :=
  if is_url text then false
  else if too_short text font_size is_bold then false
  else 3 <=? heading_score text font_size is_bold prev_font_size.


(** ** The parsed document, as the PDF library hands it over *)

(** A span of a line: ["text"], ["size"] and an optional ["weight"]. *)
Record Span : Type := mkSpan {
  span_text : string;
  span_size : Qc;
  span_weight : option Z
}.

(** [line["spans"]] *)
Definition Line : Type := list Span.

(** A block; ["lines"] is present for text blocks only. *)
Record Block : Type := mkBlock { block_lines : option (list Line) }.

(** [page.get_text("dict")["blocks"]] *)
Definition Page : Type := list Block.

Definition Document : Type := list Page.

(** The dictionaries built by the program *)
Record Candidate : Type := mkCandidate {
  c_text : string;
  c_size : Qc;
  c_page : Z;
  c_bold : bool
}.

Record OutlineEntry : Type := mkEntry {
  e_level : string;
  e_text : string;
  e_page : Z
}.

Record Result : Type := mkResult {
  title : string;
  outline : list OutlineEntry
}.

(** ** [detect_headings], first part: the scan of the lines *)

(** The three accumulators of the loop over the spans of a line *)
Record LineAcc : Type := mkLineAcc {
  la_text : string;
  la_sizes : list Qc;
  la_bold : bool
}.

Definition add_span (acc : LineAcc) (span : Span) : LineAcc :=
  {| la_text := la_text acc ++ span_text span;
     la_sizes := la_sizes acc ++ [span_size span];
     la_bold :=
       match span_weight span with
       | Some w => if 600 <=? w then true else la_bold acc
       | None => la_bold acc
       end |}.

Definition read_line (line : Line) : LineAcc :=
  fold_left add_span line (mkLineAcc EmptyString [] false).

Definition line_text (line : Line) : string := Py.strip (la_text (read_line line)).

Definition line_bold (line : Line) : bool := la_bold (read_line line).

(** [sum(font_sizes) / len(font_sizes)]; the division is reached only for
    a line with text, which has at least one span (see
    [line_text_spans]). *)
Definition avg_font_size (line : Line) : Qc :=
  let font_sizes := la_sizes (read_line line) in
  (Py.sum font_sizes / Py.num (Py.len font_sizes))%Qc.

(** The variables that live across the loops *)
Record Scan : Type := mkScan {
  heading_candidates : list Candidate;
  prev_font_size : option Qc
}.

(** The body of the loop over the lines of a block *)
Definition scan_line (page_num : Z) (st : Scan) (line : Line) : Scan :=
  let text := line_text line in
  if (text =? EmptyString)%string then st
  else
    let avg := avg_font_size line in
    let is_bold := line_bold line in
    {| heading_candidates :=
         if is_heading_candidate text avg is_bold (prev_font_size st)
         then heading_candidates st ++ [mkCandidate text avg page_num is_bold]
         else heading_candidates st;
       prev_font_size := Some avg |}.

Definition scan_block (page_num : Z) (st : Scan) (block : Block) : Scan :=
  match block_lines block with
  | Some lines => fold_left (scan_line page_num) lines st
  | None => st
  end.

Definition scan_page (st : Scan) (p : Z * Page) : Scan :=
  fold_left (scan_block (fst p)) (snd p) st.

Definition scan_document (doc : Document) : Scan :=
  fold_left scan_page (Py.enumerate 1 doc) (mkScan [] None).

(** The lines of a document in the order in which the three nested loops
    visit them, each with its page number. *)
Definition block_lines_on (page_num : Z) (block : Block) : list (Z * Line) :=
  match block_lines block with
  | Some lines => map (pair page_num) lines
  | None => []
  end.

Definition doc_lines (doc : Document) : list (Z * Line) :=
  flat_map (fun p => flat_map (block_lines_on (fst p)) (snd p))
           (Py.enumerate 1 doc).

(** The scan as a single loop over [doc_lines], from a given state *)
Definition scan_lines (lines : list (Z * Line)) (st : Scan) : Scan :=
  fold_left (fun st pl => scan_line (fst pl) st (snd pl)) lines st.


(** ** [detect_headings], second part: levels, title and outline *)

(** [sorted(list(set(sizes)), reverse=True)] *)
Definition unique_sizes (candidates : list Candidate) : list Qc :=
  Py.sort_reverse (fun x => x) Py.le (Py.set_list (map c_size candidates)).

(** [f"H{i+1}"] *)
Definition level_name (i : Z) : string := "H" ++ Py.str_of_int (i + 1).

(** The three names that [level_name] produces for the indices 0, 1, 2 *)
Definition level_names : list string := ["H1"; "H2"; "H3"].

(** The loop that fills [size_to_level] from [unique_sizes[:3]] *)
Definition assign_levels (sizes : list Qc) : Py.dict string :=
  fold_left (fun d p => Py.dict_set d (snd p) (level_name (fst p)))
            (Py.enumerate 0 (firstn 3 sizes)) [].

Definition size_to_level (candidates : list Candidate) : Py.dict string :=
  assign_levels (unique_sizes candidates).

(** The title: the text of the first candidate of the largest size *)
Definition find_title (candidates : list Candidate) : string :=
  match unique_sizes candidates with
  | largest_size :: _ =>
      match filter (fun c => Py.feq (c_size c) largest_size) candidates with
      | c :: _ => c_text c
      | [] => EmptyString
      end
  | [] => EmptyString
  end.

(** The body of the loop that builds the outline *)
Definition outline_step (title : string) (levels : Py.dict string)
    (outline : list OutlineEntry) (candidate : Candidate) : list OutlineEntry :=
  let level := Py.dict_get levels (c_size candidate) in
  if negb (Py.truthy_str level) then outline
  else
    match level with
    | Some lvl =>
        if (c_text candidate =? title)%string && (lvl =? "H1")%string
        then outline
        else outline ++ [mkEntry lvl (c_text candidate) (c_page candidate)]
    | None => outline
    end.

Definition assemble (title : string) (levels : Py.dict string)
    (candidates : list Candidate) : list OutlineEntry :=
  fold_left (outline_step title levels) candidates [].

(** The sort key [(x["level"], x["page"])] and the order of such pairs *)
Definition entry_key (e : OutlineEntry) : string * Z := (e_level e, e_page e).

Definition key_leb (a b : string * Z) : bool :=
  match String.compare (fst a) (fst b) with
  | Lt => true
  | Eq => snd a <=? snd b
  | Gt => false
  end.



(** Everything after the scan *)
Definition build_outline (candidates : list Candidate) : Result :=
  match candidates with
  | [] => mkResult EmptyString []
  | _ =>
      let title := find_title candidates in
      let outline := assemble title (size_to_level candidates) candidates in
      mkResult title (Py.sort entry_key key_leb outline)
  end.

Definition detect_headings (doc : Document) : Result :=
  build_outline (heading_candidates (scan_document doc)).

(** ** [process_all_pdfs] *)

Module Os.

(** [s.rfind(c)]: the last index of [c] in [s], or [-1] *)
Fixpoint rfind_from (i : Z) (c : ascii) (s : string) : Z :=
  match s with
  | EmptyString => -1
  | String c' s' =>
      let r := rfind_from (i + 1) c s' in
      if 0 <=? r then r else if Ascii.eqb c c' then i else -1
  end.

Definition rfind (c : ascii) (s : string) : Z := rfind_from 0 c s.

(** Some character of [s] is not a dot. *)
Fixpoint has_non_dot (s : string) : bool :=
  match s with
  | EmptyString => false
  | String c s' => negb (Ascii.eqb c ".") || has_non_dot s'
  end.

(** [os.path.splitext(p)[0]]: the extension starts at the last dot after
    the last separator, leading dots of the name apart. *)
Definition splitext_root (p : string) : string :=
  let sep := rfind "/" p in
  let dot := rfind "." p in
  if (sep <? dot) &&
     has_non_dot (substring (Z.to_nat (sep + 1)) (Z.to_nat (dot - sep - 1)) p)
  then substring 0 (Z.to_nat dot) p
  else p.

(** [os.path.join(a, b)] *)
Definition join (a b : string) : string :=
  match b with
  | String "/" _ => b
  | _ =>
      if (a =? EmptyString)%string || Py.endswith a "/" then a ++ b
      else a ++ "/" ++ b
  end.

End Os.

(** An exception that [except Exception] catches, by its message [str(e)] *)
Definition exn : Type := string.

(** What happens in [with open(output_path, "w") ...: json.dump(...)] *)
Inductive write_outcome : Type :=
| WriteDone                                   (* the file holds the JSON text *)
| OpenRaises (e : exn)                        (* [open] raises, nothing is created *)
| DumpRaises (partial : string) (e : exn).    (* [json.dump] raises after [open] *)

(** The world outside the program: the PDF library, the JSON encoder and
    the behaviour of the output directory. *)
Record Env : Type := mkEnv {
  listdir : string -> list string;
  open_pdf : string -> exn + Document;
  json_dumps : Result -> string;
  write_to : string -> write_outcome
}.

(** What the program changes: the files written, and the two streams. *)
Record World : Type := mkWorld {
  files : list (string * string);
  stdout : list string;
  stderr : list string
}.

Definition print (w : World) (msg : string) : World :=
  {| files := files w; stdout := stdout w ++ [msg]; stderr := stderr w |}.

Definition write_file (w : World) (path content : string) : World :=
  {| files := (path, content) ::
              filter (fun f => negb (fst f =? path)%string) (files w);
     stdout := stdout w; stderr := stderr w |}.

Definition error_message (filename : string) (e : exn) : string :=
  "Error processing " ++ filename ++ ": " ++ e.

Section Batch.
Variable env : Env.
Variables input_dir output_dir : string.

(** The body of the loop over the directory listing *)
Definition process_file (w : World) (filename : string) : World :=
  if Py.endswith (Py.lower filename) ".pdf" then
    let pdf_path := Os.join input_dir filename in
    match open_pdf env pdf_path with
    | inl e => print w (error_message filename e)
    | inr doc =>
        let result := detect_headings doc in
        let output_filename := Os.splitext_root filename ++ ".json" in
        let output_path := Os.join output_dir output_filename in
        match write_to env output_path with
        | OpenRaises e => print w (error_message filename e)
        | DumpRaises partial e =>
            print (write_file w output_path partial) (error_message filename e)
        | WriteDone => write_file w output_path (json_dumps env result)
        end
    end
  else w.

Definition process_all_pdfs (w : World) : World :=
  fold_left process_file (listdir env input_dir) w.

(** The exception, if any, that the body of [try] raises for a file *)
Definition file_error (filename : string) : option exn :=
  match open_pdf env (Os.join input_dir filename) with
  | inl e => Some e
  | inr _ =>
      match write_to env
              (Os.join output_dir (Os.splitext_root filename ++ ".json")) with
      | WriteDone => None
      | OpenRaises e => Some e
      | DumpRaises _ e => Some e
      end
  end.

(** The exception is raised by [json.dump], after the file was opened. *)
Definition dump_raises (filename : string) : bool :=
  match open_pdf env (Os.join input_dir filename) with
  | inl _ => false
  | inr _ =>
      match write_to env
              (Os.join output_dir (Os.splitext_root filename ++ ".json")) with
      | DumpRaises _ _ => true
      | _ => false
      end
  end.
End Batch.

(** ** Notions used to state further properties *)

(** [x / n], with the [ZeroDivisionError] of a zero divisor made explicit *)
Definition checked_div (x : Qc) (n : Z) : option Qc :=
  if n =? 0 then None else Some (x / Py.num n)%Qc.

(** The average of a line, [None] when Python would raise *)
Definition avg_font_size_checked (line : Line) : option Qc :=
  let font_sizes := la_sizes (read_line line) in
  checked_div (Py.sum font_sizes) (Py.len font_sizes).

(** The test [weight >= 600] on a span that has a weight *)
Definition span_is_bold (span : Span) : bool :=
  match span_weight span with
  | Some w => 600 <=? w
  | None => false
  end.



(** The test of the batch driver on a file name *)
Definition is_pdf (filename : string) : bool :=
  Py.endswith (Py.lower filename) ".pdf".

(** The path of the JSON file written for a file name *)
Definition output_path (output_dir filename : string) : string :=
  Os.join output_dir (Os.splitext_root filename ++ ".json").

(** The content of a file of the world, if it was written *)
Definition read_file (w : World) (path : string) : option string :=
  option_map snd (find (fun f => (fst f =? path)%string) (files w)).

(** [c in s] *)
Fixpoint contains (c : ascii) (s : string) : bool :=
  match s with
  | EmptyString => false
  | String c' s' => Ascii.eqb c c' || contains c s'
  end.

(** ** Sample inputs *)

(** Candidates of four sizes; the title text occurs at three of them. *)
Definition sample_candidates : list Candidate :=
  [ mkCandidate "Annual Report" (Py.num 14) 1 true;
    mkCandidate "Annual Report" (Py.num 18) 1 true;
    mkCandidate "Summary" (Py.num 12) 3 false;
    mkCandidate "Annual Report" (Py.num 18) 2 true;
    mkCandidate "Outlook" (Py.num 18) 2 true;
    mkCandidate "Appendix" (Py.num 10) 4 true;
    mkCandidate "Figures" (Py.num 14) 1 false ].

Definition span_of (t : string) (size : Z) (weight : option Z) : Span :=
  mkSpan t (Py.num size) weight.

(** A page whose second line is blank and set in a large size *)
Definition body_line : Line := [span_of "Introduction to the topic" 10 None].
Definition blank_line : Line := [span_of "   " 30 None].
Definition section_line : Line := [span_of "Section one" 13 None].

Definition blank_line_doc : Document :=
  [[mkBlock (Some [body_line; blank_line; section_line])]].

(** A page with a title line and one heading below it *)
Definition two_heading_doc : Document :=
  [[mkBlock (Some [[span_of "Report" 20 (Some 700)];
                   [span_of "Section one" 16 (Some 700)]])]].

(** A directory with a broken PDF, a text file and a good PDF; the
    stand-in for the JSON encoder keeps the title only. *)
Definition sample_env : Env :=
  {| listdir := fun _ => ["bad.pdf"; "notes.txt"; "good.PDF"];
     open_pdf := fun path =>
       if (path =? "in/bad.pdf")%string then inl "cannot open broken document"
       else inr blank_line_doc;
     json_dumps := fun r => title r;
     write_to := fun _ => WriteDone |}.

(** ** Sanity checks of the built-ins *)

Example split_demo : Py.split "  Hello   big world " = ["Hello"; "big"; "world"].
Proof. reflexivity. Qed.

Example strip_demo : Py.strip "  a b:  " = "a b:".
Proof. reflexivity. Qed.

Example url_demo :
  is_url "http://a" = true /\ is_url "https://a b" = true /\
  is_url "www.x" = true /\ is_url "www." = false /\ is_url "http:// a" = false /\
  is_url "see http://a" = false /\ is_url "https://" = false.
Proof. repeat split; reflexivity. Qed.

(** * Properties *)

(** ** Comparisons of sizes *)

Lemma gt_spec (x y : Qc) : Py.gt x y = true <-> (y < x)%Qc.
Proof.
  unfold Py.gt. rewrite (Qcgt_alt x y).
  destruct (x ?= y)%Qc; split; intro H; try reflexivity; discriminate H.
Qed.

Lemma le_spec (x y : Qc) : Py.le x y = true <-> (x <= y)%Qc.
Proof.
  unfold Py.le. rewrite (Qcle_alt x y).
  destruct (x ?= y)%Qc; split; intro H; try reflexivity;
    try discriminate H; try (intro H'; discriminate H').
  exfalso. apply H. reflexivity.
Qed.

Lemma feq_spec (x y : Qc) : Py.feq x y = true <-> x = y.
Proof.
  unfold Py.feq. rewrite (Qceq_alt x y).
  destruct (x ?= y)%Qc; split; intro H; try reflexivity; discriminate H.
Qed.

Lemma feq_refl (x : Qc) : Py.feq x x = true.
Proof. apply feq_spec. reflexivity. Qed.

Lemma feq_false (x y : Qc) : Py.feq x y = false <-> x <> y.
Proof.
  rewrite <- feq_spec. destruct (Py.feq x y); split; intro H;
    try reflexivity; try discriminate H; try (intro H'; discriminate H').
  exfalso. apply H. reflexivity.
Qed.

(** ** The URL pattern *)







(** ** The classifier *)

Section Classifier.
Variables (text : string) (font_size : Qc) (is_bold : bool).




(** The accumulated score is the sum of the six weights; the last one
    needs a previous size that is present and not zero. *)
Lemma heading_score_sum (prev : option Qc) :
  heading_score text font_size is_bold prev =
  (if is_bold then 2 else 0) +
  (if (text =? Py.upper text)%string then 1 else 0) +
  (if Py.endswith (Py.strip text) ":" then 1 else 0) +
  (if Py.len (Py.split text) <=? 8 then 1 else 0) +
  (if Py.gt font_size (Py.num 12) then 1 else 0) +
  match prev with
  | Some p =>
      if negb (Py.feq p (Py.num 0)) && Py.gt font_size (p + Py.num 2)%Qc
      then 2 else 0
  | None => 0
  end.
Proof.
  unfold heading_score, is_all_caps, ends_with_colon, is_short, size_jump.
  destruct is_bold, (text =? Py.upper text)%string,
    (Py.endswith (Py.strip text) ":"), (Py.len (Py.split text) <=? 8),
    (Py.gt font_size (Py.num 12)); destruct prev as [p|]; simpl;
    try reflexivity;
    destruct (negb (Py.feq p (Py.num 0)) && Py.gt font_size (p + Py.num 2)%Qc);
    reflexivity.
Qed.
End Classifier.










(** C10: a previous size that is falsy, that is absent or zero, never
    earns the jump bonus, however large the current size is: score and
    verdict are those of a line without previous size. *)
Theorem zero_prev_is_absent (text : string) (font_size : Qc) (is_bold : bool)
    (prev : option Qc) :
  Py.truthy_num prev = false ->
  size_jump font_size prev = false /\
  heading_score text font_size is_bold prev =
    heading_score text font_size is_bold None /\
  is_heading_candidate text font_size is_bold prev =
    is_heading_candidate text font_size is_bold None.
Proof.
  intro Hfalsy.
  assert (Hjump : size_jump font_size prev = false).
  { unfold size_jump. rewrite Hfalsy. reflexivity. }
  assert (Hscore : heading_score text font_size is_bold prev =
                   heading_score text font_size is_bold None).
  { unfold heading_score. rewrite Hjump. reflexivity. }
  repeat split; [exact Hjump | exact Hscore |].
  unfold is_heading_candidate. rewrite Hscore. reflexivity.
Qed.

Lemma zero_prev_is_absent_witness :
  Py.gt (Py.num 13) (Py.num 0 + Py.num 2)%Qc = true /\
  size_jump (Py.num 13) (Some (Py.num 0)) = false /\
  is_heading_candidate "Section one" (Py.num 13) false (Some (Py.num 0)) =
    is_heading_candidate "Section one" (Py.num 13) false None.
Proof.
  split; [reflexivity|].
  pose proof (zero_prev_is_absent "Section one" (Py.num 13) false
                (Some (Py.num 0)) eq_refl) as (H1 & _ & H3).
  split; [exact H1 | exact H3].
Defined.

(** ** The scan of the lines *)

Local Open Scope list_scope.

Lemma fold_left_flat_map {A B C : Type} (f : A -> C -> A) (g : B -> list C)
    (l : list B) (a : A) :
  fold_left f (flat_map g l) a = fold_left (fun a x => fold_left f (g x) a) l a.
Proof.
  revert a. induction l as [|x l IH]; intro a; simpl; [reflexivity|].
  rewrite fold_left_app. apply IH.
Qed.

Lemma fold_left_ext {A B : Type} (f g : A -> B -> A) (l : list B) (a : A) :
  (forall a x, f a x = g a x) -> fold_left f l a = fold_left g l a.
Proof.
  intro H. revert a. induction l as [|x l IH]; intro a; simpl; [reflexivity|].
  rewrite H. apply IH.
Qed.

Lemma scan_block_lines (page_num : Z) (block : Block) (st : Scan) :
  scan_block page_num st block = scan_lines (block_lines_on page_num block) st.
Proof.
  unfold scan_block, scan_lines, block_lines_on.
  destruct (block_lines block) as [lines|]; [|reflexivity].
  revert st. induction lines as [|l lines IH]; intro st; simpl; [reflexivity|].
  apply IH.
Qed.

(** The nested loops visit the lines of [doc_lines] in order. *)
Lemma scan_document_lines (doc : Document) :
  scan_document doc = scan_lines (doc_lines doc) (mkScan [] None).
Proof.
  unfold scan_document, doc_lines, scan_lines.
  rewrite fold_left_flat_map. apply fold_left_ext. intros st p.
  rewrite fold_left_flat_map. unfold scan_page. apply fold_left_ext.
  intros st' b. apply scan_block_lines.
Qed.


Lemma read_line_sizes_from (line : Line) (acc : LineAcc) :
  la_sizes (fold_left add_span line acc) = la_sizes acc ++ map span_size line.
Proof.
  revert acc. induction line as [|sp line IH]; intro acc; simpl.
  - symmetry. apply app_nil_r.
  - rewrite IH. simpl. rewrite <- app_assoc. reflexivity.
Qed.

Lemma read_line_sizes (line : Line) :
  la_sizes (read_line line) = map span_size line.
Proof. unfold read_line. rewrite read_line_sizes_from. reflexivity. Qed.

(** A line with text has a span, so the average never divides by zero. *)
Lemma line_text_spans (line : Line) :
  line_text line <> EmptyString -> 0 < Py.len (la_sizes (read_line line)).
Proof.
  intro H. rewrite read_line_sizes. unfold Py.len. rewrite length_map.
  destruct line as [|sp line]; [|simpl; lia].
  exfalso. apply H. reflexivity.
Qed.







(** ** The stable sort *)

Section SortFacts.
Context {A K : Type} (key : A -> K) (leb : K -> K -> bool).

Lemma insert_perm (x : A) (l : list A) :
  Permutation (x :: l) (Py.insert key leb x l).
Proof.
  induction l as [|y l IH]; simpl; [apply Permutation_refl|].
  destruct (leb (key x) (key y)); [apply Permutation_refl|].
  apply perm_trans with (y :: x :: l); [apply perm_swap|].
  apply perm_skip. exact IH.
Qed.

Lemma sort_perm (l : list A) : Permutation l (Py.sort key leb l).
Proof.
  induction l as [|x l IH]; simpl; [apply perm_nil|].
  apply perm_trans with (x :: Py.sort key leb l).
  - apply perm_skip. exact IH.
  - apply insert_perm.
Qed.

Lemma sort_In (l : list A) (x : A) : In x (Py.sort key leb l) <-> In x l.
Proof.
  split; apply Permutation_in;
    [apply Permutation_sym|]; apply sort_perm.
Qed.



Hypothesis leb_total : forall a b, leb a b = true \/ leb b a = true.
Hypothesis leb_trans :
  forall a b c, leb a b = true -> leb b c = true -> leb a c = true.

Lemma insert_sorted (x : A) (l : list A) :
  StronglySorted (fun a b => leb (key a) (key b) = true) l ->
  StronglySorted (fun a b => leb (key a) (key b) = true) (Py.insert key leb x l).
Proof.
  induction l as [|y l IH]; intro Hs; simpl.
  - constructor; constructor.
  - apply StronglySorted_inv in Hs. destruct Hs as [Hl Hy].
    destruct (leb (key x) (key y)) eqn:Hxy.
    + constructor; [constructor; assumption|].
      constructor; [exact Hxy|].
      rewrite Forall_forall in *. intros z Hz.
      apply leb_trans with (key y); [exact Hxy | apply Hy; exact Hz].
    + constructor; [apply IH; exact Hl|].
      rewrite Forall_forall in *. intros z Hz.
      apply (Permutation_in _ (Permutation_sym (insert_perm x l))) in Hz.
      destruct Hz as [<- | Hz]; [|apply Hy; exact Hz].
      destruct (leb_total (key x) (key y)) as [H | H]; [congruence | exact H].
Qed.

Lemma sort_sorted (l : list A) :
  StronglySorted (fun a b => leb (key a) (key b) = true) (Py.sort key leb l).
Proof.
  induction l as [|x l IH]; simpl; [constructor|].
  apply insert_sorted. exact IH.
Qed.
End SortFacts.

Lemma StronglySorted_app {A : Type} (R : A -> A -> Prop) (l1 l2 : list A) :
  StronglySorted R l1 -> StronglySorted R l2 ->
  (forall x y, In x l1 -> In y l2 -> R x y) ->
  StronglySorted R (l1 ++ l2).
Proof.
  intros H1 H2 H12. induction l1 as [|a l1 IH]; simpl; [exact H2|].
  apply StronglySorted_inv in H1. destruct H1 as [Hl Ha].
  constructor.
  - apply IH; [exact Hl|]. intros x y Hx Hy. apply H12; [right|]; assumption.
  - apply Forall_app. split; [exact Ha|].
    apply Forall_forall. intros y Hy. apply H12; [left; reflexivity | exact Hy].
Qed.

Lemma StronglySorted_rev {A : Type} (R : A -> A -> Prop) (l : list A) :
  StronglySorted R l -> StronglySorted (fun x y => R y x) (rev l).
Proof.
  induction 1 as [|a l Hl IH Ha]; simpl; [constructor|].
  apply StronglySorted_app; [exact IH | constructor; constructor |].
  intros x y Hx [<- | []]. apply in_rev in Hx.
  rewrite Forall_forall in Ha. apply Ha. exact Hx.
Qed.


Lemma StronglySorted_weaken {A : Type} (R S : A -> A -> Prop) (l : list A) :
  (forall x y, In x l -> In y l -> x <> y -> R x y -> S x y) ->
  NoDup l -> StronglySorted R l -> StronglySorted S l.
Proof.
  intros HRS Hnd Hs. induction Hs as [|a l Hl IH Ha]; [constructor|].
  inversion Hnd as [|? ? Hnin Hnd']; subst.
  constructor.
  - apply IH; [|exact Hnd']. intros x y Hx Hy. apply HRS; right; assumption.
  - rewrite Forall_forall in *. intros y Hy.
    apply HRS; [left; reflexivity | right; exact Hy | | apply Ha; exact Hy].
    intros ->. apply Hnin. exact Hy.
Qed.

(** ** Distinct sizes and levels *)

Lemma set_list_In (l : list Qc) (x : Qc) : In x (Py.set_list l) <-> In x l.
Proof.
  induction l as [|a l IH]; simpl; [reflexivity|].
  rewrite filter_In, IH, negb_true_iff, feq_false.
  split.
  - intros [H | [H _]]; [left | right]; exact H.
  - intros [H | H]; [left; exact H|].
    destruct (Qc_eq_dec a x) as [E | E]; [left; exact E|].
    right. split; [exact H|]. intro E'. apply E. symmetry. exact E'.
Qed.

Lemma set_list_NoDup (l : list Qc) : NoDup (Py.set_list l).
Proof.
  induction l as [|a l IH]; simpl; constructor.
  - rewrite filter_In, negb_true_iff, feq_false. intros [_ H]. apply H. reflexivity.
  - apply NoDup_filter. exact IH.
Qed.

Lemma le_total (a b : Qc) : Py.le a b = true \/ Py.le b a = true.
Proof.
  rewrite !le_spec. destruct (Qclt_le_dec a b) as [H | H];
    [left; apply Qclt_le_weak|right]; exact H.
Qed.

Lemma le_trans (a b c : Qc) :
  Py.le a b = true -> Py.le b c = true -> Py.le a c = true.
Proof. rewrite !le_spec. apply Qcle_trans. Qed.

(** [unique_sizes] holds exactly the sizes of the candidates, each once,
    from the largest to the smallest. *)
Lemma unique_sizes_spec (candidates : list Candidate) :
  (forall s, In s (unique_sizes candidates) <->
             exists c, In c candidates /\ c_size c = s) /\
  NoDup (unique_sizes candidates) /\
  StronglySorted (fun a b => (b < a)%Qc) (unique_sizes candidates).
Proof.
  unfold unique_sizes, Py.sort_reverse.
  set (l := Py.set_list (map c_size candidates)).
  assert (Hnd : NoDup (rev (Py.sort (fun x => x) Py.le (rev l)))).
  { apply NoDup_rev.
    apply (Permutation_NoDup (sort_perm (fun x => x) Py.le (rev l))).
    apply NoDup_rev. apply set_list_NoDup. }
  split; [|split; [exact Hnd|]].
  - intro s. rewrite <- in_rev, sort_In, <- in_rev. unfold l.
    rewrite set_list_In, in_map_iff.
    split; intros (c & H1 & H2); exists c; split; assumption.
  - apply StronglySorted_weaken with (R := fun a b => Py.le b a = true);
      [|exact Hnd|].
    + intros x y _ _ Hxy Hle. apply le_spec in Hle.
      apply Qcle_lt_or_eq in Hle. destruct Hle as [H | H]; [exact H|].
      exfalso. apply Hxy. symmetry. exact H.
    + apply (StronglySorted_rev (fun a b => Py.le a b = true)).
      apply (sort_sorted (fun x : Qc => x) Py.le le_total le_trans).
Qed.

Lemma dict_get_In {V : Type} (d : Py.dict V) (k : Qc) (v : V) :
  Py.dict_get d k = Some v -> In (k, v) d.
Proof.
  induction d as [|[k' v'] d IH]; simpl; [discriminate|].
  destruct (Py.feq k' k) eqn:E.
  - intro H. injection H as ->. apply feq_spec in E. subst. left. reflexivity.
  - intro H. right. apply IH. exact H.
Qed.

Lemma dict_get_None {V : Type} (d : Py.dict V) (k : Qc) :
  ~ In k (map fst d) -> Py.dict_get d k = None.
Proof.
  induction d as [|[k' v'] d IH]; simpl; [reflexivity|]. intro H.
  destruct (Py.feq k' k) eqn:E.
  - exfalso. apply H. left. apply feq_spec. exact E.
  - apply IH. intro H'. apply H. right. exact H'.
Qed.

(** On distinct sizes the loop maps the first three, in order, to the
    three level names. *)
Lemma assign_levels_combine (sizes : list Qc) :
  NoDup sizes -> assign_levels sizes = combine (firstn 3 sizes) level_names.
Proof.
  intro Hnd. destruct sizes as [|a [|b [|c l]]]; try reflexivity.
  - inversion Hnd as [|? ? Ha _]; subst.
    assert (Hab : Py.feq a b = false).
    { apply feq_false. intros ->. apply Ha. left. reflexivity. }
    unfold assign_levels. simpl. rewrite Hab. reflexivity.
  - inversion Hnd as [|? ? Ha Hnd']; subst.
    inversion Hnd' as [|? ? Hb _]; subst.
    assert (Hab : Py.feq a b = false).
    { apply feq_false. intros ->. apply Ha. left. reflexivity. }
    assert (Hac : Py.feq a c = false).
    { apply feq_false. intros ->. apply Ha. right. left. reflexivity. }
    assert (Hbc : Py.feq b c = false).
    { apply feq_false. intros ->. apply Hb. left. reflexivity. }
    unfold assign_levels. simpl. rewrite Hab. simpl. rewrite Hac, Hbc.
    reflexivity.
Qed.

Lemma size_to_level_combine (candidates : list Candidate) :
  size_to_level candidates =
  combine (firstn 3 (unique_sizes candidates)) level_names.
Proof.
  apply assign_levels_combine. apply unique_sizes_spec.
Qed.

Lemma level_lookup_some (candidates : list Candidate) (s : Qc) (lvl : string) :
  Py.dict_get (size_to_level candidates) s = Some lvl ->
  In s (firstn 3 (unique_sizes candidates)) /\
  (lvl = "H1" \/ lvl = "H2" \/ lvl = "H3").
Proof.
  rewrite size_to_level_combine. intro H. apply dict_get_In in H.
  split; [eapply in_combine_l; exact H|].
  apply in_combine_r in H. simpl in H. intuition auto.
Qed.

Lemma level_lookup_none (candidates : list Candidate) (s : Qc) :
  ~ In s (firstn 3 (unique_sizes candidates)) ->
  Py.dict_get (size_to_level candidates) s = None.
Proof.
  intro H. apply dict_get_None. rewrite size_to_level_combine.
  intro H'. apply H. apply in_map_iff in H'.
  destruct H' as ([k v] & <- & Hin). eapply in_combine_l. exact Hin.
Qed.

(** ** The loop that builds the outline *)

Lemma outline_step_acc (t : string) (m : Py.dict string)
    (acc : list OutlineEntry) (c : Candidate) :
  outline_step t m acc c = acc ++ outline_step t m [] c.
Proof.
  unfold outline_step.
  destruct (negb (Py.truthy_str (Py.dict_get m (c_size c))));
    [symmetry; apply app_nil_r|].
  destruct (Py.dict_get m (c_size c)) as [lvl|]; [|symmetry; apply app_nil_r].
  destruct ((c_text c =? t)%string && (lvl =? "H1")%string);
    [symmetry; apply app_nil_r | reflexivity].
Qed.

Lemma assemble_from (t : string) (m : Py.dict string) (l : list Candidate)
    (acc : list OutlineEntry) :
  fold_left (outline_step t m) l acc = acc ++ assemble t m l.
Proof.
  unfold assemble. revert acc.
  induction l as [|c l IH]; intro acc; simpl; [symmetry; apply app_nil_r|].
  rewrite IH, (IH (outline_step t m [] c)), outline_step_acc, app_assoc.
  reflexivity.
Qed.

Lemma assemble_cons (t : string) (m : Py.dict string) (c : Candidate)
    (l : list Candidate) :
  assemble t m (c :: l) = outline_step t m [] c ++ assemble t m l.
Proof. unfold assemble at 1. simpl. apply assemble_from. Qed.

Lemma assemble_app (t : string) (m : Py.dict string) (l1 l2 : list Candidate) :
  assemble t m (l1 ++ l2) = assemble t m l1 ++ assemble t m l2.
Proof.
  unfold assemble at 1. rewrite fold_left_app.
  fold (assemble t m l1). apply assemble_from.
Qed.

Lemma assemble_middle (t : string) (m : Py.dict string) (pre post : list Candidate)
    (c : Candidate) :
  assemble t m (pre ++ c :: post) =
  assemble t m pre ++ outline_step t m [] c ++ assemble t m post.
Proof. rewrite assemble_app, assemble_cons. reflexivity. Qed.

(** What one candidate contributes, by its level *)
Lemma outline_step_level (t : string) (m : Py.dict string) (c : Candidate)
    (lvl : string) :
  Py.dict_get m (c_size c) = Some lvl -> lvl <> EmptyString ->
  outline_step t m [] c =
  if (c_text c =? t)%string && (lvl =? "H1")%string then []
  else [mkEntry lvl (c_text c) (c_page c)].
Proof.
  intros Hget Hne. unfold outline_step. rewrite Hget. simpl.
  apply String.eqb_neq in Hne. rewrite Hne. reflexivity.
Qed.

Lemma outline_step_no_level (t : string) (m : Py.dict string) (c : Candidate) :
  Py.dict_get m (c_size c) = None -> outline_step t m [] c = [].
Proof. intro Hget. unfold outline_step. rewrite Hget. reflexivity. Qed.

Lemma assemble_In (t : string) (m : Py.dict string) (l : list Candidate)
    (e : OutlineEntry) :
  In e (assemble t m l) <-> exists c, In c l /\ In e (outline_step t m [] c).
Proof.
  induction l as [|c l IH]; [simpl; split; [intros [] | intros (c & [] & _)]|].
  rewrite assemble_cons, in_app_iff, IH. split.
  - intros [H | (c' & H1 & H2)].
    + exists c. split; [left; reflexivity | exact H].
    + exists c'. split; [right; exact H1 | exact H2].
  - intros (c' & [<- | H1] & H2); [left; exact H2|].
    right. exists c'. split; assumption.
Qed.

Lemma build_outline_eq (candidates : list Candidate) :
  build_outline candidates =
  mkResult (find_title candidates)
    (Py.sort entry_key key_leb
       (assemble (find_title candidates) (size_to_level candidates) candidates)).
Proof. destruct candidates; reflexivity. Qed.

Lemma outline_In (candidates : list Candidate) (e : OutlineEntry) :
  In e (outline (build_outline candidates)) <->
  In e (assemble (find_title candidates) (size_to_level candidates) candidates).
Proof. rewrite build_outline_eq. simpl. apply sort_In. Qed.

Lemma level_not_empty (lvl : string) :
  lvl = "H1" \/ lvl = "H2" \/ lvl = "H3" -> lvl <> EmptyString.
Proof. intros [-> | [-> | ->]]; discriminate. Qed.

(** C2: for a non-empty list of candidates, the distinct sizes are taken
    from the largest down and the first three of them are mapped, in
    order, to H1, H2 and H3; every entry of the outline has the level that
    this map gives to the size of its candidate; a candidate whose size is
    not among the first three has no level and adds no entry. *)
Theorem levels_from_sizes (candidates : list Candidate) :
  candidates <> [] ->
  let sizes := unique_sizes candidates in
  let levels := size_to_level candidates in
  let t := find_title candidates in
  (forall s, In s sizes <-> exists c, In c candidates /\ c_size c = s) /\
  StronglySorted (fun a b => (b < a)%Qc) sizes /\
  levels = combine (firstn 3 sizes) ["H1"; "H2"; "H3"] /\
  (forall e, In e (outline (build_outline candidates)) ->
     exists c, In c candidates /\ e_text e = c_text c /\ e_page e = c_page c /\
               Py.dict_get levels (c_size c) = Some (e_level e)) /\
  (forall pre c post, candidates = pre ++ c :: post ->
     ~ In (c_size c) (firstn 3 sizes) ->
     Py.dict_get levels (c_size c) = None /\
     assemble t levels candidates = assemble t levels pre ++ assemble t levels post).
Proof.
  intros _ sizes levels t.
  destruct (unique_sizes_spec candidates) as (Hin & _ & Hsorted).
  split; [exact Hin|]. split; [exact Hsorted|].
  split; [apply size_to_level_combine|]. split.
  - intros e He. apply outline_In, assemble_In in He.
    destruct He as (c & Hc & He). exists c. split; [exact Hc|].
    fold levels t in He.
    destruct (Py.dict_get levels (c_size c)) as [lvl|] eqn:Hget.
    + pose proof (level_lookup_some _ _ _ Hget) as [_ Hlvl].
      rewrite (outline_step_level t levels c lvl Hget (level_not_empty _ Hlvl)) in He.
      destruct ((c_text c =? t)%string && (lvl =? "H1")%string); [destruct He|].
      destruct He as [<- | []]. simpl. auto.
    + rewrite (outline_step_no_level t levels c Hget) in He. destruct He.
  - intros pre c post -> Hout.
    pose proof (level_lookup_none _ _ Hout) as Hnone. fold levels in Hnone.
    split; [exact Hnone|].
    rewrite assemble_middle, (outline_step_no_level t levels c Hnone).
    reflexivity.
Qed.

Lemma levels_from_sizes_witness :
  size_to_level sample_candidates =
    [(Py.num 18, "H1"); (Py.num 14, "H2"); (Py.num 12, "H3")] /\
  Py.dict_get (size_to_level sample_candidates) (Py.num 10) = None.
Proof.
  assert (Hne : sample_candidates <> []) by discriminate.
  pose proof (levels_from_sizes sample_candidates Hne)
    as (_ & _ & Hmap & _ & Hdrop).
  split.
  - rewrite Hmap. reflexivity.
  - refine (proj1 (Hdrop (firstn 5 sample_candidates)
                     (mkCandidate "Appendix" (Py.num 10) 4 true)
                     (skipn 6 sample_candidates) eq_refl _)).
    intro H. vm_compute in H. intuition discriminate.
Defined.

(** ** The title *)

Lemma filter_head_split {A : Type} (p : A -> bool) (l : list A) (x : A)
    (r : list A) :
  filter p l = x :: r ->
  exists pre post, l = pre ++ x :: post /\
                   (forall y, In y pre -> p y = false) /\ p x = true.
Proof.
  induction l as [|a l IH]; simpl; [discriminate|].
  destruct (p a) eqn:Ha.
  - intro H. injection H as -> _. exists [], l.
    split; [reflexivity|]. split; [intros y []| exact Ha].
  - intro H. destruct (IH H) as (pre & post & -> & Hpre & Hx).
    exists (a :: pre), post. split; [reflexivity|]. split; [|exact Hx].
    intros y [<- | Hy]; [exact Ha | apply Hpre; exact Hy].
Qed.

(** C3: for a non-empty list the title is the text of the first candidate,
    in document order, whose size is the largest of all; for the empty
    list the result is the empty title with the empty outline. *)
Theorem title_is_first_largest :
  (forall candidates, candidates <> [] ->
     exists pre c post,
       candidates = pre ++ c :: post /\
       (forall c', In c' candidates -> (c_size c' <= c_size c)%Qc) /\
       (forall c', In c' pre -> c_size c' <> c_size c) /\
       title (build_outline candidates) = c_text c) /\
  build_outline [] = mkResult EmptyString [] /\
  (forall doc, heading_candidates (scan_document doc) = [] ->
     detect_headings doc = mkResult EmptyString []).
Proof.
  split; [|split; [reflexivity|]].
  2: { intros doc H. unfold detect_headings. rewrite H. reflexivity. }
  intros candidates Hne.
  destruct (unique_sizes_spec candidates) as (Hin & _ & Hsorted).
  rewrite build_outline_eq. simpl. unfold find_title.
  destruct (unique_sizes candidates) as [|m rest] eqn:Hus.
  - exfalso. destruct candidates as [|c0 l]; [apply Hne; reflexivity|].
    apply (proj2 (Hin (c_size c0))). exists c0. split; [left|]; reflexivity.
  - destruct (proj1 (Hin m) (or_introl eq_refl)) as (cm & Hcm & Hsize).
    destruct (filter (fun c => Py.feq (c_size c) m) candidates) as [|c r] eqn:Hf.
    + exfalso.
      assert (Hx : In cm (filter (fun c => Py.feq (c_size c) m) candidates)).
      { apply filter_In. split; [exact Hcm|]. apply feq_spec. exact Hsize. }
      rewrite Hf in Hx. destruct Hx.
    + destruct (filter_head_split _ _ _ _ Hf) as (pre & post & Hl & Hpre & Hc).
      apply feq_spec in Hc. exists pre, c, post.
      split; [exact Hl|]. split; [|split; [|reflexivity]].
      * intros c' Hc'. rewrite Hc.
        assert (Hs : In (c_size c') (m :: rest)).
        { apply Hin. exists c'. split; [exact Hc' | reflexivity]. }
        destruct Hs as [<- | Hs]; [apply Qcle_refl|].
        apply StronglySorted_inv in Hsorted. destruct Hsorted as [_ Hm].
        rewrite Forall_forall in Hm. apply Qclt_le_weak. apply Hm. exact Hs.
      * intros c' Hc'. rewrite Hc. apply feq_false. apply Hpre. exact Hc'.
Qed.

Lemma title_is_first_largest_witness :
  title (build_outline sample_candidates) = "Annual Report" /\
  exists pre c post,
    sample_candidates = pre ++ c :: post /\
    (forall c', In c' sample_candidates -> (c_size c' <= c_size c)%Qc) /\
    (forall c', In c' pre -> c_size c' <> c_size c) /\
    title (build_outline sample_candidates) = c_text c.
Proof.
  split; [reflexivity|].
  apply (proj1 title_is_first_largest sample_candidates). discriminate.
Defined.

(** ** Suppression of the title *)

(** C4: while the outline is built, a candidate that has a level is
    skipped exactly when the level is H1 and its text is the title;
    otherwise its entry is appended, so that a candidate with the text of
    the title at level H2 or H3 is in the outline. *)
Theorem title_duplicate_skipped (candidates pre post : list Candidate)
    (c : Candidate) (lvl : string) :
  candidates = pre ++ c :: post ->
  Py.dict_get (size_to_level candidates) (c_size c) = Some lvl ->
  let t := title (build_outline candidates) in
  let levels := size_to_level candidates in
  (assemble t levels candidates = assemble t levels pre ++ assemble t levels post
   <-> lvl = "H1" /\ c_text c = t) /\
  (~ (lvl = "H1" /\ c_text c = t) ->
   assemble t levels candidates =
   assemble t levels pre ++
   mkEntry lvl (c_text c) (c_page c) :: assemble t levels post) /\
  (c_text c = t -> lvl = "H2" \/ lvl = "H3" ->
   In (mkEntry lvl (c_text c) (c_page c)) (outline (build_outline candidates))).
Proof.
  intros Hl Hget t levels.
  assert (Ht : t = find_title candidates).
  { unfold t. rewrite build_outline_eq. reflexivity. }
  pose proof (level_lookup_some _ _ _ Hget) as [_ Hlvl].
  pose proof (outline_step_level t levels c lvl Hget (level_not_empty _ Hlvl))
    as Hstep.
  assert (Hasm : assemble t levels candidates =
                 assemble t levels pre ++
                 outline_step t levels [] c ++ assemble t levels post).
  { rewrite Hl at 1. apply assemble_middle. }
  assert (Hemit : ~ (lvl = "H1" /\ c_text c = t) ->
                  outline_step t levels [] c = [mkEntry lvl (c_text c) (c_page c)]).
  { intro Hnot. rewrite Hstep.
    destruct (String.eqb_spec (c_text c) t) as [E1 | E1];
      destruct (String.eqb_spec lvl "H1") as [E2 | E2]; simpl;
      try reflexivity.
    exfalso. apply Hnot. split; assumption. }
  split; [|split].
  - rewrite Hasm. split.
    + intro H. apply app_inv_head in H.
      destruct (String.eqb_spec (c_text c) t) as [E1 | E1];
        destruct (String.eqb_spec lvl "H1") as [E2 | E2];
        try (split; assumption);
        exfalso; rewrite Hemit in H by (intros [? ?]; contradiction);
        apply (f_equal (@List.length _)) in H; simpl in H; lia.
    + intros [E2 E1]. rewrite Hstep.
      apply String.eqb_eq in E1, E2. rewrite E1, E2. reflexivity.
  - intro Hnot. rewrite Hasm, (Hemit Hnot). reflexivity.
  - intros Htext Hlow. apply outline_In. rewrite <- Ht. fold levels.
    rewrite Hasm, Hemit.
    + apply in_or_app. right. left. reflexivity.
    + intros [-> _]. destruct Hlow; discriminate.
Qed.

Lemma title_duplicate_skipped_witness :
  In (mkEntry "H2" "Annual Report" 1) (outline (build_outline sample_candidates)) /\
  assemble "Annual Report" (size_to_level sample_candidates) sample_candidates =
  assemble "Annual Report" (size_to_level sample_candidates)
    (firstn 3 sample_candidates) ++
  assemble "Annual Report" (size_to_level sample_candidates)
    (skipn 4 sample_candidates).
Proof.
  split.
  - apply (proj2 (proj2 (title_duplicate_skipped sample_candidates []
                           (skipn 1 sample_candidates)
                           (mkCandidate "Annual Report" (Py.num 14) 1 true)
                           "H2" eq_refl eq_refl))).
    + reflexivity.
    + left. reflexivity.
  - apply (proj1 (title_duplicate_skipped sample_candidates
                    (firstn 3 sample_candidates) (skipn 4 sample_candidates)
                    (mkCandidate "Annual Report" (Py.num 18) 2 true)
                    "H1" eq_refl eq_refl)).
    split; reflexivity.
Defined.

(** ** The order of the outline *)

Lemma ascii_compare_refl (a : ascii) : Ascii.compare a a = Eq.
Proof. unfold Ascii.compare. apply N.compare_refl. Qed.

Lemma string_compare_refl (s : string) : String.compare s s = Eq.
Proof.
  induction s as [|a s IH]; simpl; [reflexivity|].
  rewrite ascii_compare_refl. exact IH.
Qed.

Lemma string_compare_eq (s1 s2 : string) : String.compare s1 s2 = Eq <-> s1 = s2.
Proof.
  split; [apply String.compare_eq_iff | intros ->; apply string_compare_refl].
Qed.








(** ** The batch driver *)

Section BatchFacts.
Variable env : Env.
Variables input_dir output_dir : string.

Lemma process_file_stderr (w : World) (filename : string) :
  stderr (process_file env input_dir output_dir w filename) = stderr w.
Proof.
  unfold process_file.
  destruct (Py.endswith (Py.lower filename) ".pdf"); [|reflexivity].
  destruct (open_pdf env (Os.join input_dir filename)); [reflexivity|].
  destruct (write_to env _); reflexivity.
Qed.

(** Nothing is ever written to standard error. *)
Lemma process_all_stderr (w : World) :
  stderr (process_all_pdfs env input_dir output_dir w) = stderr w.
Proof.
  unfold process_all_pdfs.
  generalize (listdir env input_dir). intro l. revert w.
  induction l as [|f l IH]; intro w; simpl; [reflexivity|].
  rewrite IH. apply process_file_stderr.
Qed.

Lemma process_file_error (w : World) (filename : string) (e : exn) :
  Py.endswith (Py.lower filename) ".pdf" = true ->
  file_error env input_dir output_dir filename = Some e ->
  stdout (process_file env input_dir output_dir w filename) =
    stdout w ++ [error_message filename e] /\
  (dump_raises env input_dir output_dir filename = false ->
   files (process_file env input_dir output_dir w filename) = files w).
Proof.
  unfold process_file, file_error, dump_raises. intros -> He.
  destruct (open_pdf env (Os.join input_dir filename)) as [e'|doc].
  - injection He as ->. split; reflexivity.
  - destruct (write_to env _) as [|e'|partial e']; try discriminate He;
      injection He as ->; split; try reflexivity.
    discriminate.
Qed.
End BatchFacts.

(** C9, as amended: when the processing of a PDF of the batch raises an
    error, the error is caught and a message made of the file name and of
    the error message is printed on standard output (standard error is
    left alone); unless the error came while the JSON was being written,
    no file is written for it; and the remaining files are processed from
    the resulting state. *)
Theorem failure_is_isolated (env : Env) (input_dir output_dir : string)
    (before after : list string) (filename : string) (e : exn) (w : World) :
  listdir env input_dir = before ++ filename :: after ->
  Py.endswith (Py.lower filename) ".pdf" = true ->
  file_error env input_dir output_dir filename = Some e ->
  let step := process_file env input_dir output_dir in
  let w0 := fold_left step before w in
  let w1 := step w0 filename in
  stdout w1 = stdout w0 ++ ["Error processing " ++ filename ++ ": " ++ e]%string /\
  stderr w1 = stderr w0 /\
  (dump_raises env input_dir output_dir filename = false -> files w1 = files w0) /\
  process_all_pdfs env input_dir output_dir w = fold_left step after w1.
Proof.
  intros Hdir Hpdf Herr step w0 w1.
  destruct (process_file_error env input_dir output_dir w0 filename e Hpdf Herr)
    as [Hout Hfiles].
  split; [exact Hout|]. split; [apply process_file_stderr|].
  split; [exact Hfiles|].
  unfold process_all_pdfs. rewrite Hdir, fold_left_app. reflexivity.
Qed.

Lemma failure_is_isolated_witness :
  let w := process_all_pdfs sample_env "in" "out" (mkWorld [] [] []) in
  w = fold_left (process_file sample_env "in" "out") ["notes.txt"; "good.PDF"]
        (mkWorld [] ["Error processing bad.pdf: cannot open broken document"] []).
Proof.
  pose proof (failure_is_isolated sample_env "in" "out" [] ["notes.txt"; "good.PDF"]
                "bad.pdf" "cannot open broken document" (mkWorld [] [] [])
                eq_refl eq_refl eq_refl) as (_ & _ & _ & H).
  exact H.
Defined.

(** C9 as stated fails: the message for the broken file of the sample
    directory is on standard output and standard error stays empty. *)
Lemma failure_is_isolated_counterexample :
  let w := process_all_pdfs sample_env "in" "out" (mkWorld [] [] []) in
  file_error sample_env "in" "out" "bad.pdf" =
    Some "cannot open broken document" /\
  stderr w = [] /\
  stdout w = ["Error processing bad.pdf: cannot open broken document"] /\
  files w = [("out/good.json", "Section one")].
Proof. repeat split; reflexivity. Qed.

(** * Further properties of the program *)

(** ** The classifier *)

Lemma gt_mono (x x' y : Qc) :
  (x <= x')%Qc -> Py.gt x y = true -> Py.gt x' y = true.
Proof.
  rewrite !gt_spec. intros Hle Hlt. eapply Qclt_le_trans; eassumption.
Qed.







(** X4: the verdict is monotone in size and boldness: a line accepted at
    some size stays accepted at any larger size, and when made bold, the
    text and the previous size being the same. *)
Theorem larger_bolder_accepted (text : string) (font_size font_size' : Qc)
    (is_bold is_bold' : bool) (prev : option Qc) :
  (font_size <= font_size')%Qc ->
  (is_bold = true -> is_bold' = true) ->
  is_heading_candidate text font_size is_bold prev = true ->
  is_heading_candidate text font_size' is_bold' prev = true.
Proof.
  intros Hsize Hbold. unfold is_heading_candidate.
  destruct (is_url text); [discriminate|].
  destruct (too_short text font_size is_bold) eqn:Hshort; [discriminate|].
  assert (Hshort' : too_short text font_size' is_bold' = false).
  { unfold too_short in *.
    destruct (Py.len (Py.split text) <? 2); [|reflexivity]. simpl in *.
    apply negb_false_iff, andb_true_iff in Hshort. destruct Hshort as [Hb Hg].
    rewrite (Hbold Hb), (gt_mono _ _ _ Hsize Hg). reflexivity. }
  rewrite Hshort', !Z.leb_le, !heading_score_sum.
  assert (H12 : Py.gt font_size (Py.num 12) = true ->
                Py.gt font_size' (Py.num 12) = true) by apply gt_mono, Hsize.
  assert (Hj : forall p, Py.gt font_size (p + Py.num 2)%Qc = true ->
                         Py.gt font_size' (p + Py.num 2)%Qc = true)
    by (intro p; apply gt_mono, Hsize).
  destruct (Py.gt font_size (Py.num 12));
    [rewrite (H12 eq_refl) | destruct (Py.gt font_size' (Py.num 12))];
    (destruct is_bold; [rewrite (Hbold eq_refl) | destruct is_bold']);
    destruct (text =? Py.upper text)%string, (Py.endswith (Py.strip text) ":"),
      (Py.len (Py.split text) <=? 8);
    destruct prev as [p|]; try lia;
    specialize (Hj p);
    destruct (negb (Py.feq p (Py.num 0)));
    (destruct (Py.gt font_size (p + Py.num 2)%Qc);
       [rewrite (Hj eq_refl) | destruct (Py.gt font_size' (p + Py.num 2)%Qc)]);
    simpl; lia.
Qed.

Lemma larger_bolder_accepted_witness :
  is_heading_candidate "Section one" (Py.num 20) true (Some (Py.num 10)) = true.
Proof.
  apply (larger_bolder_accepted "Section one" (Py.num 13) (Py.num 20) false true
           (Some (Py.num 10))).
  - vm_compute. discriminate.
  - reflexivity.
  - reflexivity.
Defined.

(** ** The aggregation of a line *)

Lemma string_app_nil_r (s : string) : (s ++ EmptyString)%string = s.
Proof. induction s as [|c s IH]; simpl; [reflexivity | rewrite IH; reflexivity]. Qed.

Lemma string_app_assoc (s1 s2 s3 : string) :
  ((s1 ++ s2) ++ s3)%string = (s1 ++ (s2 ++ s3))%string.
Proof.
  induction s1 as [|c s1 IH]; simpl; [reflexivity | rewrite IH; reflexivity].
Qed.

Lemma read_line_from (line : Line) (acc : LineAcc) :
  fold_left add_span line acc =
  mkLineAcc
    (la_text acc ++ fold_right String.append EmptyString (map span_text line))
    (la_sizes acc ++ map span_size line)
    (la_bold acc || existsb span_is_bold line).
Proof.
  revert acc. induction line as [|sp line IH]; intro acc; simpl.
  - rewrite string_app_nil_r, app_nil_r, orb_false_r. destruct acc; reflexivity.
  - rewrite IH. unfold add_span at 1 2 3. simpl.
    rewrite string_app_assoc, <- app_assoc. simpl. f_equal.
    unfold span_is_bold. destruct (span_weight sp) as [w|]; simpl.
    + destruct (600 <=? w); simpl; [rewrite orb_true_r|]; reflexivity.
    + reflexivity.
Qed.

(** X5: the loop over the spans of a line yields the concatenation of the
    span texts, the span sizes in order, and a boldness flag that holds
    exactly when some span has a weight of at least 600; a span without
    weight never makes the line bold. *)
Theorem read_line_closed_form (line : Line) :
  la_text (read_line line) =
    fold_right String.append EmptyString (map span_text line) /\
  la_sizes (read_line line) = map span_size line /\
  (line_bold line = true <->
   exists sp w, In sp line /\ span_weight sp = Some w /\ 600 <= w).
Proof.
  unfold line_bold, read_line. rewrite read_line_from. simpl.
  split; [reflexivity|]. split; [reflexivity|].
  rewrite existsb_exists. unfold span_is_bold. split.
  - intros (sp & Hin & Hb). destruct (span_weight sp) as [w|] eqn:Hw;
      [|discriminate Hb].
    exists sp, w. split; [exact Hin|]. split; [exact Hw|].
    apply Z.leb_le. exact Hb.
  - intros (sp & w & Hin & Hw & Hle). exists sp. split; [exact Hin|].
    rewrite Hw. apply Z.leb_le. exact Hle.
Qed.

(** X6: the average is computed only for a line whose stripped text is
    not empty; such a line has a span, so the division never raises, and
    a line without spans is skipped without a division. *)
Theorem average_never_raises (page_num : Z) (st : Scan) (line : Line) :
  (line_text line <> EmptyString ->
   line <> [] /\ avg_font_size_checked line = Some (avg_font_size line)) /\
  (avg_font_size_checked line = None -> scan_line page_num st line = st).
Proof.
  assert (Hlen : Py.len (la_sizes (read_line line)) = Z.of_nat (List.length line)).
  { rewrite read_line_sizes. unfold Py.len. rewrite length_map. reflexivity. }
  unfold avg_font_size_checked, checked_div, avg_font_size. rewrite Hlen.
  split.
  - intro Htext. destruct line as [|sp line].
    + exfalso. apply Htext. reflexivity.
    + split; [discriminate|]. reflexivity.
  - destruct line as [|sp line]; [reflexivity|]. simpl. discriminate.
Qed.






(** ** The candidates that the scan collects *)

Lemma enumerate_In {A : Type} (l : list A) (s i : Z) (x : A) :
  In (i, x) (Py.enumerate s l) -> s <= i < s + Py.len l /\ In x l.
Proof.
  revert s. induction l as [|y l IH]; intros s; simpl; [intros []|].
  assert (Hlen : Py.len (y :: l) = Py.len l + 1)
    by (unfold Py.len; simpl List.length; lia).
  assert (H0 : 0 <= Py.len l) by (unfold Py.len; lia).
  intros [H | H].
  - injection H as <- <-. split; [lia | left; reflexivity].
  - apply IH in H. destruct H as [H1 H2]. split; [lia | right; exact H2].
Qed.

Lemma page_lines_fst (n : Z) (page : Page) (pl : Z * Line) :
  In pl (flat_map (block_lines_on n) page) -> fst pl = n.
Proof.
  rewrite in_flat_map. intros (b & _ & H). unfold block_lines_on in H.
  destruct (block_lines b) as [lines|]; [|destruct H].
  apply in_map_iff in H. destruct H as (l & <- & _). reflexivity.
Qed.

Lemma doc_lines_pages (doc : Document) (pg : Z) (line : Line) :
  In (pg, line) (doc_lines doc) -> 1 <= pg <= Py.len doc.
Proof.
  unfold doc_lines. rewrite in_flat_map. intros ([n page] & Hp & Hl).
  apply page_lines_fst in Hl. simpl in Hl. subst n.
  apply enumerate_In in Hp. destruct Hp as [Hp _].
  change (@Py.len Page doc) with (@Py.len (list Block) doc). lia.
Qed.

Lemma scan_lines_cons (n : Z) (line : Line) (lines : list (Z * Line)) (st : Scan) :
  scan_lines ((n, line) :: lines) st = scan_lines lines (scan_line n st line).
Proof. reflexivity. Qed.

(** A candidate of the state after a line is an old one or the line
    itself, accepted by the classifier. *)
Lemma scan_line_candidates (n : Z) (st : Scan) (line : Line) (c : Candidate) :
  In c (heading_candidates (scan_line n st line)) ->
  In c (heading_candidates st) \/
  (line_text line <> EmptyString /\
   c = mkCandidate (line_text line) (avg_font_size line) n (line_bold line) /\
   is_heading_candidate (line_text line) (avg_font_size line) (line_bold line)
     (prev_font_size st) = true).
Proof.
  unfold scan_line.
  destruct (String.eqb_spec (line_text line) EmptyString) as [E | E];
    [left; assumption|].
  simpl.
  destruct (is_heading_candidate (line_text line) (avg_font_size line)
              (line_bold line) (prev_font_size st)) eqn:Hc;
    [|left; assumption].
  intro H. apply in_app_or in H. destruct H as [H | [<- | []]];
    [left; exact H | right].
  split; [exact E|]. split; reflexivity.
Qed.

Lemma scan_lines_candidates (lines : list (Z * Line)) (st : Scan) (c : Candidate) :
  In c (heading_candidates (scan_lines lines st)) ->
  In c (heading_candidates st) \/
  exists line prev,
    In (c_page c, line) lines /\ line_text line <> EmptyString /\
    c = mkCandidate (line_text line) (avg_font_size line) (c_page c)
          (line_bold line) /\
    is_heading_candidate (line_text line) (avg_font_size line) (line_bold line)
      prev = true.
Proof.
  revert st. induction lines as [|[n line] lines IH]; intro st;
    [left; assumption|].
  rewrite scan_lines_cons. intro H. apply IH in H.
  destruct H as [H | (l & prev & Hin & Ht & Hc & Ha)].
  - apply scan_line_candidates in H.
    destruct H as [H | (Ht & -> & Ha)]; [left; exact H | right].
    exists line, (prev_font_size st). simpl.
    split; [left; reflexivity|]. repeat split; assumption.
  - right. exists l, prev. split; [right; exact Hin|].
    repeat split; assumption.
Qed.

Lemma candidate_source (doc : Document) (c : Candidate) :
  In c (heading_candidates (scan_document doc)) ->
  exists line prev,
    In (c_page c, line) (doc_lines doc) /\ line_text line <> EmptyString /\
    c = mkCandidate (line_text line) (avg_font_size line) (c_page c)
          (line_bold line) /\
    is_heading_candidate (line_text line) (avg_font_size line) (line_bold line)
      prev = true.
Proof.
  rewrite scan_document_lines. intro H. apply scan_lines_candidates in H.
  destruct H as [[] | H]. exact H.
Qed.



Lemma lines_from_sorted (doc : Document) (s : Z) :
  let lines := flat_map (fun p => flat_map (block_lines_on (fst p)) (snd p))
                        (Py.enumerate s doc) in
  StronglySorted Z.le (map fst lines) /\ (forall pl, In pl lines -> s <= fst pl).
Proof.
  revert s. induction doc as [|page doc IH]; intro s; simpl.
  - split; [constructor | intros pl []].
  - destruct (IH (s + 1)) as [Hs Hge]. split.
    + rewrite map_app. apply StronglySorted_app; [|exact Hs|].
      * assert (Hall : forall x, In x (map fst (flat_map (block_lines_on s) page))
                                 -> x = s).
        { intros x Hx. apply in_map_iff in Hx. destruct Hx as (pl & <- & Hpl).
          apply (page_lines_fst _ _ _ Hpl). }
        induction (map fst (flat_map (block_lines_on s) page)) as [|x l IHl];
          constructor.
        -- apply IHl. intros y Hy. apply Hall. right. exact Hy.
        -- apply Forall_forall. intros y Hy.
           rewrite (Hall x (or_introl eq_refl)), (Hall y (or_intror Hy)). lia.
      * intros x y Hx Hy. apply in_map_iff in Hx, Hy.
        destruct Hx as (pl & <- & Hpl). destruct Hy as (pl' & <- & Hpl').
        rewrite (page_lines_fst _ _ _ Hpl). apply Hge in Hpl'. lia.
    + intros pl Hpl. apply in_app_or in Hpl. destruct Hpl as [Hpl | Hpl].
      * rewrite (page_lines_fst _ _ _ Hpl). lia.
      * apply Hge in Hpl. lia.
Qed.

Lemma scan_lines_page_order (lines : list (Z * Line)) (st : Scan) :
  StronglySorted Z.le (map fst lines) ->
  StronglySorted (fun a b => c_page a <= c_page b) (heading_candidates st) ->
  (forall c pl, In c (heading_candidates st) -> In pl lines -> c_page c <= fst pl) ->
  StronglySorted (fun a b => c_page a <= c_page b)
    (heading_candidates (scan_lines lines st)).
Proof.
  revert st. induction lines as [|[n line] lines IH]; intros st Hl Hs Hle;
    [exact Hs|].
  rewrite scan_lines_cons. simpl in Hl.
  apply StronglySorted_inv in Hl. destruct Hl as [Hl Hn].
  rewrite Forall_forall in Hn.
  assert (Hold : forall c, In c (heading_candidates st) -> c_page c <= n).
  { intros c Hc. apply (Hle c (n, line) Hc). left. reflexivity. }
  apply IH; [exact Hl | |].
  - unfold scan_line. destruct (line_text line =? EmptyString)%string; [exact Hs|].
    simpl. destruct (is_heading_candidate _ _ _ _); [|exact Hs].
    apply StronglySorted_app; [exact Hs | constructor; constructor |].
    intros x y Hx [<- | []]. simpl. apply Hold. exact Hx.
  - intros c pl Hc Hpl. apply scan_line_candidates in Hc.
    destruct Hc as [Hc | (_ & -> & _)].
    + apply (Hle c pl Hc). right. exact Hpl.
    + simpl. apply Hn. apply in_map. exact Hpl.
Qed.

(** X9: the candidates are collected in document order: their page
    numbers never decrease along the list. *)
Theorem candidates_in_page_order (doc : Document) :
  StronglySorted (fun a b => c_page a <= c_page b)
    (heading_candidates (scan_document doc)).
Proof.
  rewrite scan_document_lines. apply scan_lines_page_order.
  - apply (lines_from_sorted doc 1).
  - constructor.
  - intros c pl [].
Qed.


Lemma filter_flat_map {A B : Type} (p : B -> bool) (f : A -> list B) (l : list A) :
  filter p (flat_map f l) = flat_map (fun x => filter p (f x)) l.
Proof.
  induction l as [|x l IH]; simpl; [reflexivity|].
  rewrite filter_app, IH. reflexivity.
Qed.





(** ** Levels, title and outline *)

Lemma outline_entry_source (candidates : list Candidate) (e : OutlineEntry) :
  In e (outline (build_outline candidates)) ->
  exists c,
    In c candidates /\
    e = mkEntry (e_level e) (c_text c) (c_page c) /\
    Py.dict_get (size_to_level candidates) (c_size c) = Some (e_level e) /\
    (e_level e = "H1" \/ e_level e = "H2" \/ e_level e = "H3") /\
    ~ (c_text c = find_title candidates /\ e_level e = "H1").
Proof.
  intro He. apply outline_In, assemble_In in He. destruct He as (c & Hc & He).
  exists c. split; [exact Hc|].
  destruct (Py.dict_get (size_to_level candidates) (c_size c)) as [lvl|] eqn:Hget.
  - pose proof (level_lookup_some _ _ _ Hget) as [_ Hlvl].
    rewrite (outline_step_level _ _ c lvl Hget (level_not_empty _ Hlvl)) in He.
    destruct (String.eqb_spec (c_text c) (find_title candidates)) as [E1 | E1];
      destruct (String.eqb_spec lvl "H1") as [E2 | E2]; simpl in He;
      try (destruct He as [<- | []]; simpl; repeat split; try assumption;
           intros [? ?]; contradiction).
    destruct He.
  - rewrite (outline_step_no_level _ _ c Hget) in He. destruct He.
Qed.

Lemma first_largest_split (candidates : list Candidate) :
  candidates <> [] ->
  exists pre c post rest,
    candidates = pre ++ c :: post /\
    unique_sizes candidates = c_size c :: rest /\
    find_title candidates = c_text c.
Proof.
  intro Hne. destruct (unique_sizes_spec candidates) as (Hin & _ & _).
  unfold find_title.
  destruct (unique_sizes candidates) as [|m rest] eqn:Hus.
  - exfalso. destruct candidates as [|c0 l]; [apply Hne; reflexivity|].
    apply (proj2 (Hin (c_size c0))). exists c0. split; [left|]; reflexivity.
  - destruct (proj1 (Hin m) (or_introl eq_refl)) as (cm & Hcm & Hsize).
    destruct (filter (fun c => Py.feq (c_size c) m) candidates) as [|c r] eqn:Hf.
    + exfalso.
      assert (Hx : In cm (filter (fun c => Py.feq (c_size c) m) candidates)).
      { apply filter_In. split; [exact Hcm|]. apply feq_spec. exact Hsize. }
      rewrite Hf in Hx. destruct Hx.
    + destruct (filter_head_split _ _ _ _ Hf) as (pre & post & Hl & _ & Hc).
      apply feq_spec in Hc. exists pre, c, post, rest. rewrite Hc.
      repeat split. exact Hl.
Qed.

Lemma lookup_head (candidates : list Candidate) (m s : Qc) (rest : list Qc) :
  unique_sizes candidates = m :: rest ->
  (Py.dict_get (size_to_level candidates) s = Some "H1" <-> s = m).
Proof.
  intro Hus. rewrite size_to_level_combine, Hus. simpl.
  destruct (Py.feq m s) eqn:E.
  - apply feq_spec in E. split; [intros _; symmetry; exact E | reflexivity].
  - split.
    + intro H. apply dict_get_In, in_combine_r in H.
      destruct H as [H | [H | []]]; discriminate H.
    + intros ->. rewrite feq_refl in E. discriminate E.
Qed.

(** X11: every entry of the outline of a document has one of the levels
    H1, H2, H3, a text that is not empty, and a page number between 1 and
    the number of pages; text and page are those of a candidate. *)
Theorem outline_entry_shape (doc : Document) (e : OutlineEntry) :
  In e (outline (detect_headings doc)) ->
  (e_level e = "H1" \/ e_level e = "H2" \/ e_level e = "H3") /\
  e_text e <> EmptyString /\
  1 <= e_page e <= Py.len doc /\
  exists c, In c (heading_candidates (scan_document doc)) /\
            e_text e = c_text c /\ e_page e = c_page c.
Proof.
  unfold detect_headings. intro He. apply outline_entry_source in He.
  destruct He as (c & Hc & He & _ & Hlvl & _).
  split; [exact Hlvl|].
  pose proof (candidate_source doc c Hc) as (line & prev & Hin & Ht & Hcl & _).
  rewrite He. simpl. split; [|split].
  - rewrite Hcl. simpl. exact Ht.
  - apply (doc_lines_pages _ _ _ Hin).
  - exists c. split; [exact Hc|]. split; reflexivity.
Qed.

Lemma outline_entry_shape_witness :
  "Section one" <> EmptyString /\ 1 <= 1 <= Py.len two_heading_doc.
Proof.
  pose proof (outline_entry_shape two_heading_doc (mkEntry "H2" "Section one" 1))
    as H.
  destruct H as (_ & Ht & Hp & _); [left; reflexivity|].
  split; [exact Ht | exact Hp].
Defined.

(** X12: no entry of level H1 carries the text of the title. *)
Theorem title_not_repeated_at_h1 (candidates : list Candidate) (e : OutlineEntry) :
  In e (outline (build_outline candidates)) ->
  e_level e = "H1" ->
  e_text e <> title (build_outline candidates).
Proof.
  intros He Hlvl Htext. apply outline_entry_source in He.
  destruct He as (c & _ & He & _ & _ & Hnot).
  apply Hnot. split; [|exact Hlvl].
  rewrite He in Htext. simpl in Htext. rewrite Htext, build_outline_eq.
  reflexivity.
Qed.

Lemma title_not_repeated_at_h1_witness :
  "Outlook" <> title (build_outline sample_candidates).
Proof.
  apply (title_not_repeated_at_h1 sample_candidates (mkEntry "H1" "Outlook" 2)).
  - left. reflexivity.
  - reflexivity.
Defined.

(** X13: a candidate has level H1 exactly when no candidate is larger. *)
Theorem h1_iff_largest (candidates : list Candidate) (c : Candidate) :
  In c candidates ->
  (Py.dict_get (size_to_level candidates) (c_size c) = Some "H1" <->
   forall c', In c' candidates -> (c_size c' <= c_size c)%Qc).
Proof.
  intro Hc. destruct (unique_sizes_spec candidates) as (Hin & _ & Hsorted).
  destruct (unique_sizes candidates) as [|m rest] eqn:Hus.
  - exfalso. apply (proj2 (Hin (c_size c))). exists c. split; [exact Hc | reflexivity].
  - rewrite (lookup_head candidates m (c_size c) rest Hus).
    apply StronglySorted_inv in Hsorted. destruct Hsorted as [_ Hm].
    rewrite Forall_forall in Hm.
    assert (Hmax : forall c', In c' candidates -> (c_size c' <= m)%Qc).
    { intros c' Hc'.
      assert (Hs : In (c_size c') (m :: rest))
        by (apply Hin; exists c'; split; [exact Hc' | reflexivity]).
      destruct Hs as [<- | Hs]; [apply Qcle_refl|].
      apply Qclt_le_weak, Hm, Hs. }
    split.
    + intros -> c' Hc'. apply Hmax. exact Hc'.
    + intro Hge. destruct (proj1 (Hin m) (or_introl eq_refl)) as (cm & Hcm & <-).
      apply Qcle_antisym; [apply Hmax; exact Hc | apply Hge; exact Hcm].
Qed.

Lemma h1_iff_largest_witness :
  Py.dict_get (size_to_level sample_candidates) (Py.num 18) = Some "H1".
Proof.
  apply (proj2 (h1_iff_largest sample_candidates
                  (mkCandidate "Outlook" (Py.num 18) 2 true)
                  (or_intror (or_intror (or_intror (or_intror
                     (or_introl eq_refl))))))).
  intros c' Hc'. simpl in Hc'.
  repeat (destruct Hc' as [<- | Hc']; [vm_compute; discriminate|]).
  destruct Hc'.
Defined.

(** X14: the title of a document is empty exactly when the scan found no
    candidate. *)
Theorem title_empty_iff_no_candidates (doc : Document) :
  title (detect_headings doc) = EmptyString <->
  heading_candidates (scan_document doc) = [].
Proof.
  unfold detect_headings. split.
  - intro Ht.
    destruct (heading_candidates (scan_document doc)) as [|c0 l] eqn:Hcs;
      [reflexivity|].
    exfalso.
    destruct (first_largest_split (c0 :: l)) as (pre & c & post & rest & Hl & _ & Hft);
      [discriminate|].
    rewrite build_outline_eq in Ht. simpl in Ht. rewrite Hft in Ht.
    assert (Hc : In c (heading_candidates (scan_document doc))).
    { rewrite Hcs, Hl. apply in_elt. }
    pose proof (candidate_source doc c Hc) as (line & prev & _ & Hne & Hcl & _).
    rewrite Hcl in Ht. simpl in Ht. contradiction.
  - intros ->. reflexivity.
Qed.

Lemma assemble_length (t : string) (m : Py.dict string) (l : list Candidate) :
  (List.length (assemble t m l) <= List.length l)%nat.
Proof.
  induction l as [|c l IH]; [apply Nat.le_refl|].
  rewrite assemble_cons, length_app. simpl List.length.
  assert (H : (List.length (outline_step t m [] c) <= 1)%nat).
  { unfold outline_step.
    destruct (negb (Py.truthy_str (Py.dict_get m (c_size c)))); [simpl; lia|].
    destruct (Py.dict_get m (c_size c)); [|simpl; lia].
    destruct ((c_text c =? t)%string && (s =? "H1")%string); simpl; lia. }
  lia.
Qed.

(** X15: the candidate that gives the title is never an entry: a
    non-empty list of candidates yields fewer entries than candidates. *)
Theorem outline_shorter_than_candidates (candidates : list Candidate) :
  candidates <> [] ->
  (List.length (outline (build_outline candidates)) < List.length candidates)%nat.
Proof.
  intro Hne.
  destruct (first_largest_split candidates Hne)
    as (pre & c & post & rest & Hl & Hus & Hft).
  rewrite build_outline_eq. simpl.
  rewrite <- (Permutation_length (sort_perm entry_key key_leb _)).
  assert (Hget : Py.dict_get (size_to_level candidates) (c_size c) = Some "H1")
    by (apply (lookup_head candidates (c_size c) (c_size c) rest Hus); reflexivity).
  rewrite Hl at 3 4. rewrite assemble_middle, !length_app.
  rewrite (outline_step_level _ _ c "H1" Hget) by discriminate.
  rewrite Hft, !String.eqb_refl. simpl.
  pose proof (assemble_length (c_text c) (size_to_level candidates) pre).
  pose proof (assemble_length (c_text c) (size_to_level candidates) post).
  lia.
Qed.

Lemma outline_shorter_than_candidates_witness :
  (List.length (outline (build_outline sample_candidates)) < 7)%nat.
Proof.
  apply (outline_shorter_than_candidates sample_candidates). discriminate.
Defined.

Lemma assemble_all_skipped (t : string) (m : Py.dict string) (l : list Candidate) :
  (forall c, In c l -> outline_step t m [] c = []) -> assemble t m l = [].
Proof.
  induction l as [|c l IH]; intro H; [reflexivity|].
  rewrite assemble_cons, (H c (or_introl eq_refl)). simpl.
  apply IH. intros c' Hc'. apply H. right. exact Hc'.
Qed.

(** X16: when all candidates have the size and the text of the first one,
    as for a single candidate or for a heading repeated on every page, the
    title is that text and the outline is empty. *)
Theorem repeated_heading_outline_empty (c0 : Candidate) (rest : list Candidate) :
  (forall c, In c rest -> c_size c = c_size c0 /\ c_text c = c_text c0) ->
  build_outline (c0 :: rest) = mkResult (c_text c0) [].
Proof.
  intro Hsame.
  assert (Hall : forall c, In c (c0 :: rest) ->
                           c_size c = c_size c0 /\ c_text c = c_text c0).
  { intros c [<- | Hc]; [split; reflexivity | apply Hsame; exact Hc]. }
  destruct (first_largest_split (c0 :: rest))
    as (pre & c & post & r & Hl & Hus & Hft); [discriminate|].
  assert (Hc : In c (c0 :: rest)) by (rewrite Hl; apply in_elt).
  destruct (Hall c Hc) as [Hsize Htext].
  rewrite build_outline_eq, Hft, Htext.
  rewrite assemble_all_skipped; [reflexivity|].
  intros c' Hc'. destruct (Hall c' Hc') as [Hsize' Htext'].
  assert (Hget : Py.dict_get (size_to_level (c0 :: rest)) (c_size c') = Some "H1").
  { apply (lookup_head (c0 :: rest) (c_size c) (c_size c') r Hus). congruence. }
  rewrite (outline_step_level _ _ c' "H1" Hget) by discriminate.
  rewrite Htext', !String.eqb_refl. reflexivity.
Qed.

Lemma repeated_heading_outline_empty_witness :
  build_outline [mkCandidate "Quarterly Review" (Py.num 20) 1 true;
                 mkCandidate "Quarterly Review" (Py.num 20) 2 true] =
  mkResult "Quarterly Review" [].
Proof.
  apply (repeated_heading_outline_empty
           (mkCandidate "Quarterly Review" (Py.num 20) 1 true)
           [mkCandidate "Quarterly Review" (Py.num 20) 2 true]).
  intros c [<- | []]. split; reflexivity.
Defined.

Lemma descending_unique (l1 l2 : list Qc) :
  StronglySorted (fun a b => (b < a)%Qc) l1 ->
  StronglySorted (fun a b => (b < a)%Qc) l2 ->
  (forall x, In x l1 <-> In x l2) ->
  l1 = l2.
Proof.
  intro H1. revert l2. induction H1 as [|a l1 Hs1 IH Ha]; intros l2 H2 Hin.
  - destruct l2 as [|b l2]; [reflexivity|].
    exfalso. apply (proj2 (Hin b)). left. reflexivity.
  - destruct H2 as [|b l2 Hs2 Hb].
    + exfalso. apply (proj1 (Hin a)). left. reflexivity.
    + rewrite Forall_forall in Ha, Hb.
      assert (Hab : a = b).
      { destruct (proj1 (Hin a) (or_introl eq_refl)) as [E | Ea]; [symmetry; exact E|].
        destruct (proj2 (Hin b) (or_introl eq_refl)) as [E | Eb]; [exact E|].
        exfalso. apply (Qclt_not_le _ _ (Ha b Eb)).
        apply Qclt_le_weak. apply Hb. exact Ea. }
      subst b. f_equal. apply IH; [exact Hs2|].
      intro x. split; intro Hx.
      * destruct (proj1 (Hin x) (or_intror Hx)) as [E | Hx']; [|exact Hx'].
        exfalso. apply (Qclt_not_eq _ _ (Ha x Hx)). symmetry. exact E.
      * destruct (proj2 (Hin x) (or_intror Hx)) as [E | Hx']; [|exact Hx'].
        exfalso. apply (Qclt_not_eq _ _ (Hb x Hx)). symmetry. exact E.
Qed.

(** X17: the levels depend on the set of sizes only: two lists of
    candidates with the same sizes, in whatever order and number, have the
    same distinct sizes and the same map from sizes to levels. *)
Theorem levels_depend_on_sizes_only (candidates candidates' : list Candidate) :
  (forall s, In s (map c_size candidates) <-> In s (map c_size candidates')) ->
  unique_sizes candidates = unique_sizes candidates' /\
  size_to_level candidates = size_to_level candidates'.
Proof.
  intro Hsame.
  assert (Hus : unique_sizes candidates = unique_sizes candidates').
  { destruct (unique_sizes_spec candidates) as (Hin & _ & Hs).
    destruct (unique_sizes_spec candidates') as (Hin' & _ & Hs').
    apply descending_unique; [exact Hs | exact Hs' |].
    intro x. rewrite Hin, Hin'. specialize (Hsame x).
    rewrite !in_map_iff in Hsame.
    split; intros (c & Hc & E).
    - destruct (proj1 Hsame (ex_intro _ c (conj E Hc))) as (c' & E' & Hc').
      exists c'. split; assumption.
    - destruct (proj2 Hsame (ex_intro _ c (conj E Hc))) as (c' & E' & Hc').
      exists c'. split; assumption. }
  split; [exact Hus|]. unfold size_to_level. rewrite Hus. reflexivity.
Qed.

Lemma levels_depend_on_sizes_only_witness :
  size_to_level (rev sample_candidates) = size_to_level sample_candidates.
Proof.
  apply (levels_depend_on_sizes_only (rev sample_candidates) sample_candidates).
  intro s. rewrite map_rev. symmetry. apply in_rev.
Defined.

(** ** The batch driver: names, streams and files *)

Lemma contains_app (c : ascii) (s1 s2 : string) :
  contains c (s1 ++ s2)%string = contains c s1 || contains c s2.
Proof.
  induction s1 as [|a s1 IH]; simpl; [reflexivity|].
  rewrite IH. apply orb_assoc.
Qed.

Lemma rfind_from_absent (c : ascii) (s : string) (i : Z) :
  contains c s = false -> Os.rfind_from i c s = -1.
Proof.
  revert i. induction s as [|a s IH]; intros i H; simpl in *; [reflexivity|].
  apply orb_false_iff in H. destruct H as [Ha Hs].
  rewrite (IH (i + 1) Hs), Ha. reflexivity.
Qed.

Lemma rfind_from_last (c : ascii) (s1 s2 : string) (i : Z) :
  0 <= i -> contains c s2 = false ->
  Os.rfind_from i c (s1 ++ String c s2)%string = i + Z.of_nat (String.length s1).
Proof.
  intros Hi Hs2. revert i Hi. induction s1 as [|a s1 IH]; intros i Hi.
  - simpl. rewrite (rfind_from_absent c s2 (i + 1) Hs2), Ascii.eqb_refl.
    simpl. lia.
  - cbn [append Os.rfind_from String.length]. rewrite IH by lia.
    destruct (Z.leb_spec 0 (i + 1 + Z.of_nat (String.length s1))); lia.
Qed.

Lemma substring_0_app (s1 s2 : string) :
  substring 0 (String.length s1) (s1 ++ s2) = s1.
Proof.
  induction s1 as [|a s1 IH]; simpl.
  - destruct s2; reflexivity.
  - rewrite IH. reflexivity.
Qed.

(** X18: for a name without slash whose last dot is followed by an
    extension, the root is the part before that dot when this part has a
    character other than a dot, and the whole name otherwise (a name such
    as [.pdf] keeps its leading dots); so the PDF [stem.ext] is written to
    [stem.json] in the output directory, whatever the case of [ext]. *)
Theorem splitext_root_spec (stem ext output_dir : string) :
  contains "/" stem = false ->
  contains "/" ext = false ->
  contains "." ext = false ->
  (Os.has_non_dot stem = true ->
   Os.splitext_root (stem ++ String "." ext) = stem /\
   output_path output_dir (stem ++ String "." ext) =
     Os.join output_dir (stem ++ ".json")) /\
  (Os.has_non_dot stem = false ->
   Os.splitext_root (stem ++ String "." ext) = (stem ++ String "." ext)%string).
Proof.
  intros Hstem Hext Hdot.
  assert (Hsep : Os.rfind "/" (stem ++ String "." ext) = -1).
  { apply rfind_from_absent. rewrite contains_app, Hstem. simpl. exact Hext. }
  assert (Hlast : Os.rfind "." (stem ++ String "." ext) =
                  Z.of_nat (String.length stem)).
  { unfold Os.rfind. rewrite rfind_from_last by (try lia; exact Hdot). lia. }
  assert (Hroot : forall b, Os.has_non_dot stem = b ->
            Os.splitext_root (stem ++ String "." ext) =
            if b then stem else (stem ++ String "." ext)%string).
  { intros b Hb. unfold Os.splitext_root. rewrite Hsep, Hlast.
    replace (Z.to_nat (-1 + 1)) with 0%nat by lia.
    replace (Z.to_nat (Z.of_nat (String.length stem) - -1 - 1))
      with (String.length stem) by lia.
    rewrite Nat2Z.id, substring_0_app, Hb.
    destruct (Z.ltb_spec (-1) (Z.of_nat (String.length stem))); [|lia].
    reflexivity. }
  split; intro Hb.
  - pose proof (Hroot true Hb) as H. simpl in H. split; [exact H|].
    unfold output_path. rewrite H. reflexivity.
  - exact (Hroot false Hb).
Qed.

Lemma splitext_root_spec_witness :
  output_path "out" "report.v2.PDF" = "out/report.v2.json" /\
  Os.splitext_root "..pdf" = "..pdf".
Proof.
  pose proof (splitext_root_spec "report.v2" "PDF" "out" eq_refl eq_refl eq_refl)
    as [H1 _].
  pose proof (splitext_root_spec "." "pdf" "out" eq_refl eq_refl eq_refl)
    as [_ H2].
  split.
  - exact (proj2 (H1 eq_refl)).
  - exact (H2 eq_refl).
Defined.

Section BatchExtras.
Variable env : Env.
Variables input_dir output_dir : string.

Lemma process_file_not_pdf (w : World) (filename : string) :
  is_pdf filename = false ->
  process_file env input_dir output_dir w filename = w.
Proof. unfold is_pdf, process_file. intros ->. reflexivity. Qed.

Lemma process_file_stdout (w : World) (filename : string) :
  stdout (process_file env input_dir output_dir w filename) =
  stdout w ++
  (if is_pdf filename then
     match file_error env input_dir output_dir filename with
     | Some e => [error_message filename e]
     | None => []
     end
   else []).
Proof.
  unfold is_pdf, process_file, file_error.
  destruct (Py.endswith (Py.lower filename) ".pdf");
    [|symmetry; apply app_nil_r].
  destruct (open_pdf env (Os.join input_dir filename)); [reflexivity|].
  destruct (write_to env _); try reflexivity. symmetry. apply app_nil_r.
Qed.

Lemma read_file_print (w : World) (msg path : string) :
  read_file (print w msg) path = read_file w path.
Proof. reflexivity. Qed.

Lemma read_file_write_same (w : World) (path content : string) :
  read_file (write_file w path content) path = Some content.
Proof. unfold read_file, write_file. simpl. rewrite String.eqb_refl. reflexivity. Qed.

Lemma find_filter_other (l : list (string * string)) (p p' : string) :
  p' <> p ->
  find (fun f => (fst f =? p)%string)
       (filter (fun f => negb (fst f =? p')%string) l) =
  find (fun f => (fst f =? p)%string) l.
Proof.
  intro Hne. induction l as [|[q c] l IH]; [reflexivity|]. simpl.
  destruct (String.eqb_spec q p') as [-> | Hq]; simpl.
  - apply String.eqb_neq in Hne. rewrite Hne. exact IH.
  - destruct (q =? p)%string; [reflexivity | exact IH].
Qed.

Lemma read_file_write_other (w : World) (path path' content : string) :
  path' <> path ->
  read_file (write_file w path' content) path = read_file w path.
Proof.
  intro Hne. unfold read_file, write_file. simpl.
  pose proof Hne as Hne'. apply String.eqb_neq in Hne'. rewrite Hne'.
  rewrite (find_filter_other _ _ _ Hne). reflexivity.
Qed.

Lemma process_file_other_path (w : World) (filename path : string) :
  (is_pdf filename = true -> output_path output_dir filename <> path) ->
  read_file (process_file env input_dir output_dir w filename) path =
  read_file w path.
Proof.
  unfold is_pdf, process_file, output_path. intro Hne.
  destruct (Py.endswith (Py.lower filename) ".pdf"); [|reflexivity].
  specialize (Hne eq_refl).
  destruct (open_pdf env (Os.join input_dir filename)); [reflexivity|].
  destruct (write_to env _); try reflexivity.
  - apply read_file_write_other. exact Hne.
  - rewrite read_file_print. apply read_file_write_other. exact Hne.
Qed.

Lemma later_files_keep_path (after : list string) (w : World) (path : string) :
  (forall later, In later after -> is_pdf later = true ->
     output_path output_dir later <> path) ->
  read_file (fold_left (process_file env input_dir output_dir) after w) path =
  read_file w path.
Proof.
  revert w. induction after as [|f after IH]; intros w Hlater; [reflexivity|].
  simpl. rewrite IH.
  - apply process_file_other_path. apply Hlater. left. reflexivity.
  - intros later Hin. apply Hlater. right. exact Hin.
Qed.
End BatchExtras.

(** X19: files whose name does not end in [.pdf], whatever the case of
    the letters, are not touched: the batch does what it does on the PDF
    names of the listing alone. *)
Theorem other_files_ignored (env : Env) (input_dir output_dir : string)
    (w : World) :
  process_all_pdfs env input_dir output_dir w =
  fold_left (process_file env input_dir output_dir)
            (filter is_pdf (listdir env input_dir)) w.
Proof.
  unfold process_all_pdfs. generalize (listdir env input_dir). intro l.
  revert w. induction l as [|f l IH]; intro w; [reflexivity|].
  simpl. destruct (is_pdf f) eqn:E; simpl.
  - apply IH.
  - rewrite (process_file_not_pdf env input_dir output_dir w f E). apply IH.
Qed.

(** X20: standard output receives one message for each PDF whose
    processing raises, in the order of the listing, and nothing else;
    standard error receives nothing. *)
Theorem batch_streams (env : Env) (input_dir output_dir : string) (w : World) :
  stdout (process_all_pdfs env input_dir output_dir w) =
    stdout w ++
    flat_map (fun filename =>
                if is_pdf filename then
                  match file_error env input_dir output_dir filename with
                  | Some e => ["Error processing " ++ filename ++ ": " ++ e]%string
                  | None => []
                  end
                else [])
             (listdir env input_dir) /\
  stderr (process_all_pdfs env input_dir output_dir w) = stderr w.
Proof.
  split; [|apply process_all_stderr].
  unfold process_all_pdfs. generalize (listdir env input_dir). intro l.
  revert w. induction l as [|f l IH]; intro w; simpl.
  - symmetry. apply app_nil_r.
  - rewrite IH, process_file_stdout, <- app_assoc. reflexivity.
Qed.

(** X21: when a PDF is read and its JSON written without error, and no
    later PDF of the listing has the same output path, the output
    directory holds at the end, under [root.json], the encoding of the
    result of [detect_headings] on that document. *)
Theorem successful_file_written (env : Env) (input_dir output_dir : string)
    (before after : list string) (filename : string) (doc : Document)
    (w : World) :
  listdir env input_dir = before ++ filename :: after ->
  is_pdf filename = true ->
  open_pdf env (Os.join input_dir filename) = inr doc ->
  write_to env (output_path output_dir filename) = WriteDone ->
  (forall later, In later after -> is_pdf later = true ->
     output_path output_dir later <> output_path output_dir filename) ->
  read_file (process_all_pdfs env input_dir output_dir w)
            (output_path output_dir filename) =
  Some (json_dumps env (detect_headings doc)).
Proof.
  intros Hdir Hpdf Hopen Hwrite Hlater.
  unfold process_all_pdfs. rewrite Hdir, fold_left_app. simpl.
  rewrite (later_files_keep_path env input_dir output_dir after _ _ Hlater).
  unfold process_file. unfold is_pdf in Hpdf. rewrite Hpdf, Hopen.
  unfold output_path in Hwrite. rewrite Hwrite. apply read_file_write_same.
Qed.

Lemma successful_file_written_witness :
  read_file (process_all_pdfs sample_env "in" "out" (mkWorld [] [] []))
            "out/good.json" = Some "Section one".
Proof.
  apply (successful_file_written sample_env "in" "out" ["bad.pdf"; "notes.txt"] []
           "good.PDF" blank_line_doc (mkWorld [] [] [])
           eq_refl eq_refl eq_refl eq_refl).
  intros later [].
Defined.
